(** * Tools: schema-validated invocation with lifecycle notifications

    A shallow embedding of [langchain/tools/base.py]: the schema
    inferencer ([create_schema_from_function] and its helpers), the tool
    invoker ([BaseTool.run], [BaseTool.arun]) and [StructuredTool].

    Python values, exceptions, keyword-argument passing, [inspect.signature]
    and the part of pydantic the module calls are modelled first; the
    functions of [base.py] follow, one definition per source function. *)

From Stdlib Require Import String Ascii List ZArith Bool DecimalString.
Import ListNotations.
Local Open Scope string_scope.

(** ** Exceptions *)

(** The exception classes the module raises or lets through.  [UserError]
    stands for any other subclass of [Exception] a tool function raises;
    the last three derive from [BaseException] only. *)
Inductive exc_class : Type :=
| ValidationError
| StopIteration
| TypeError
| KeyError
| NameError
| AttributeError
| ConfigError
| AssertionError
| NotImplementedError
| RuntimeError
| UserError (tag : nat)
| KeyboardInterrupt
| SystemExit
| GeneratorExit.

(** An exception object: its class and its message.  Re-raising the same
    object is returning the same value. *)
Record exn : Type := mk_exn { exc_type : exc_class; exc_msg : string }.

(** [isinstance(e, Exception)]. *)
Definition is_Exception (e : exn) : bool :=
  match exc_type e with
  | KeyboardInterrupt | SystemExit | GeneratorExit => false
  | _ => true
  end.

(** [isinstance(e, KeyboardInterrupt)]. *)
Definition is_KeyboardInterrupt (e : exn) : bool :=
  match exc_type e with
  | KeyboardInterrupt => true
  | _ => false
  end.

(** The handler of [run] and [arun]: [except (Exception, KeyboardInterrupt)]. *)
Definition except_Exception_KeyboardInterrupt (e : exn) : bool :=
  is_Exception e || is_KeyboardInterrupt e.

(** The outcome of evaluating an expression: a value or a raised exception. *)
Inductive result (A : Type) : Type :=
| Ok (a : A)
| Raise (e : exn).
Arguments Ok {A} a.
Arguments Raise {A} e.

Definition rbind {A B : Type} (r : result A) (k : A -> result B) : result B :=
  match r with
  | Ok a => k a
  | Raise e => Raise e
  end.

Declare Scope result_scope.
Delimit Scope result_scope with result.
Notation "x <- r ;; k" := (rbind r (fun x => k))
  (at level 61, r at next level, right associativity) : result_scope.

(** ** Callback managers and values *)

(** [Callbacks]: [None] or an opaque set of handlers. *)
Definition Callbacks : Type := option nat.

(** What [CallbackManager.configure] / [AsyncCallbackManager.configure]
    were given: the manager itself belongs to the callback layer. *)
Record CallbackManager : Type := mk_manager {
  cm_async : bool;
  inheritable_callbacks : Callbacks;
  local_callbacks : Callbacks;
  cm_verbose : bool
}.

(** The run-tracking handle [on_tool_start] returns. *)
Record RunManager : Type := mk_run_manager { rm_parent : CallbackManager }.

Inductive pyval : Type :=
| VNone
| VBool (b : bool)
| VInt (z : Z)
| VStr (s : string)
| VRunManager (rm : RunManager)
| VChild (rm : RunManager).      (* the value of [rm.get_child()] *)

(** A mapping with string keys, in insertion order; the first binding of
    a key is the one a lookup sees. *)
Definition dict : Type := list (string * pyval).

Fixpoint lookup (k : string) (d : dict) : option pyval :=
  match d with
  | [] => None
  | (k', v) :: d' => if String.eqb k k' then Some v else lookup k d'
  end.

Definition has_key (k : string) (d : dict) : bool :=
  match lookup k d with
  | Some _ => true
  | None => false
  end.

Definition remove_key (k : string) (d : dict) : dict :=
  filter (fun kv => negb (String.eqb k (fst kv))) d.

Definition is_None (v : pyval) : bool :=
  match v with
  | VNone => true
  | _ => false
  end.

(** [bool(v)]. *)
Definition truthy (v : pyval) : bool :=
  match v with
  | VNone => false
  | VBool b => b
  | VInt z => negb (Z.eqb z 0)
  | VStr s => negb (String.eqb s "")
  | VRunManager _ | VChild _ => true
  end.

(** [Optional[str]] as a value. *)
Definition of_opt_str (o : option string) : pyval :=
  match o with
  | Some s => VStr s
  | None => VNone
  end.

(** ** Types and the host runtime *)

(** The annotations of parameters and schema fields. *)
Inductive pytype : Type :=
| TAny
| TInt
| TStr
| TBool
| TList (t : pytype)
| TTuple (t : pytype)            (* [Tuple[t, ...]] *)
| TDict (k v : pytype)
| TOptional (t : pytype)
| TClass (qualname : string).    (* a plain class: pydantic has no validator for it *)

(** What the module takes from the interpreter and from pydantic without
    fixing it: [repr] of a value, [str] of a mapping, and the validators
    pydantic attaches to a field of a given type ([None]: the value is
    rejected). *)
Class Runtime : Type := {
  repr : pyval -> string;
  str_dict : list (string * pyval) -> string;
  find_validators : pytype -> pyval -> option pyval
}.

(** A runtime for the worked examples.  [example_repr] is [repr] on
    [None], booleans, integers and strings without quotes, backslashes or
    control characters, and [example_str_dict] is [str] on mappings of such
    values; [example_validators] accepts unchanged a value that already has
    the declared scalar type, and [Any] accepts everything. *)
Definition example_repr (v : pyval) : string :=
  match v with
  | VNone => "None"
  | VBool true => "True"
  | VBool false => "False"
  | VStr s => "'" ++ s ++ "'"
  | VInt z => NilZero.string_of_int (Z.to_int z)
  | VRunManager _ | VChild _ => "<object>"
  end.

Fixpoint example_validators (t : pytype) (v : pyval) : option pyval :=
  match t, v with
  | TAny, _ => Some v
  | TInt, VInt _ => Some v
  | TStr, VStr _ => Some v
  | TBool, VBool _ => Some v
  | TOptional a, _ => example_validators a v
  | _, _ => None
  end.

Definition example_str_dict (d : list (string * pyval)) : string :=
  "{" ++ String.concat ", "
           (map (fun kv => "'" ++ fst kv ++ "': " ++ example_repr (snd kv)) d)
      ++ "}".

Definition example_runtime : Runtime :=
  {| repr := example_repr;
     str_dict := example_str_dict;
     find_validators := example_validators |}.

(** ** Notifications and the state of a call *)

(** Which method a call expression of [run] / [arun] invokes. *)
Inductive callee : Type := The_run | The_arun.

(** What a call leaves behind, in order: the three hooks of the
    notification channel, and each evaluation of the call expression
    [self._run(...)] / [self._arun(...)] with its positional arguments, its
    explicit keywords and the mapping unpacked after them. *)
Inductive event : Type :=
| ToolStart (cm : CallbackManager) (serialized : list (string * string))
            (input_str : string) (kwargs : dict)
| ToolEnd (rm : RunManager) (output : string) (kwargs : dict)
| ToolError (rm : RunManager) (e : exn)
| Called (f : callee) (args : list pyval) (explicit star : dict).

(** A computation: it extends the trace and returns or raises.  Events
    emitted before a raise stay in the trace. *)
Definition M (A : Type) : Type := list event -> result A * list event.

Definition ret {A : Type} (a : A) : M A := fun tr => (Ok a, tr).

Definition raise {A : Type} (e : exn) : M A := fun tr => (Raise e, tr).

Definition bind {A B : Type} (m : M A) (k : A -> M B) : M B :=
  fun tr =>
    match m tr with
    | (Ok a, tr') => k a tr'
    | (Raise e, tr') => (Raise e, tr')
    end.

Definition lift {A : Type} (r : result A) : M A := fun tr => (r, tr).

Definition emit (ev : event) : M unit := fun tr => (Ok tt, (tr ++ [ev])%list).

(** What leaves a coroutine: a [StopIteration] that escapes an
    [async def] is replaced by a [RuntimeError]. *)
Definition escaped (e : exn) : exn :=
  match exc_type e with
  | StopIteration => mk_exn RuntimeError "coroutine raised StopIteration"
  | _ => e
  end.

Definition escaped_result {A : Type} (r : result A) : result A :=
  match r with
  | Ok a => Ok a
  | Raise e => Raise (escaped e)
  end.

(** The body of an [async def], awaited. *)
Definition async_def {A : Type} (m : M A) : M A :=
  fun tr => let (r, tr') := m tr in (escaped_result r, tr').

(** [try: body  except classes as e: handler(e)]. *)
Definition try_except {A : Type} (body : M A) (classes : exn -> bool)
    (handler : exn -> M A) : M A :=
  fun tr =>
    match body tr with
    | (Ok a, tr') => (Ok a, tr')
    | (Raise e, tr') => if classes e then handler e tr' else (Raise e, tr')
    end.

Declare Scope tool_scope.
Delimit Scope tool_scope with tool.
Notation "x <- m ;; k" := (bind m (fun x => k))
  (at level 61, m at next level, right associativity) : tool_scope.
Notation "m ;; k" := (bind m (fun _ => k))
  (at level 61, right associativity) : tool_scope.

(** ** Calls with keyword arguments *)

(** The keywords of a call [f(..., k1=v1, ..., **star)]: a key of [star]
    that repeats an explicit keyword is a [TypeError] at the call. *)
Definition keywords (explicit star : dict) : result dict :=
  if existsb (fun kv => has_key (fst kv) star) explicit
  then Raise (mk_exn TypeError "got multiple values for keyword argument")
  else Ok (explicit ++ star)%list.

(** ** Function objects and [inspect.signature] *)

Inductive param_kind : Type :=
| POSITIONAL_ONLY
| POSITIONAL_OR_KEYWORD
| VAR_POSITIONAL
| KEYWORD_ONLY
| VAR_KEYWORD.

(** [inspect.Parameter]; [None] is [Parameter.empty]. *)
Record Param : Type := mk_param {
  p_name : string;
  p_kind : param_kind;
  p_annotation : option pytype;
  p_default : option pyval
}.

(** A callable: what [inspect] sees of it, and what a call of it with the
    given positional arguments and keywords evaluates to (for a coroutine
    function: what awaiting that call evaluates to). *)
Record pyfunc : Type := mk_func {
  __name__ : string;
  __doc__ : option string;
  parameters : list Param;
  return_annotation : option pytype;
  body : list pyval -> dict -> result pyval
}.

(** [f] applied to [args], the keywords [explicit] and the unpacked [star]. *)
Definition py_call (f : pyfunc) (args : list pyval) (explicit star : dict)
    : result pyval :=
  (kw <- keywords explicit star ;; body f args kw)%result.

(** [signature(f).parameters.get(name)], as a truth value. *)
Definition has_parameter (name : string) (f : pyfunc) : bool :=
  existsb (fun p => String.eqb name (p_name p)) (parameters f).

(** [inspect.formatannotation]. *)
Fixpoint formatannotation (t : pytype) : string :=
  match t with
  | TAny => "Any"
  | TInt => "int"
  | TStr => "str"
  | TBool => "bool"
  | TList a => "List[" ++ formatannotation a ++ "]"
  | TTuple a => "Tuple[" ++ formatannotation a ++ ", ...]"
  | TDict k v => "Dict[" ++ formatannotation k ++ ", " ++ formatannotation v ++ "]"
  | TOptional a => "Optional[" ++ formatannotation a ++ "]"
  | TClass qualname => qualname
  end.

Section Signature.
Context `{Runtime}.

(** [str(v)]: a string is its own string form. *)
Definition py_str (v : pyval) : string :=
  match v with
  | VStr s => s
  | _ => repr v
  end.

(** [Parameter.__str__]. *)
Definition Param_str (p : Param) : string :=
  let formatted := p_name p in
  let formatted :=
    match p_annotation p with
    | Some a => formatted ++ ": " ++ formatannotation a
    | None => formatted
    end in
  let formatted :=
    match p_default p with
    | Some d =>
        match p_annotation p with
        | Some _ => formatted ++ " = " ++ repr d
        | None => formatted ++ "=" ++ repr d
        end
    | None => formatted
    end in
  match p_kind p with
  | VAR_POSITIONAL => "*" ++ formatted
  | VAR_KEYWORD => "**" ++ formatted
  | _ => formatted
  end.

(** The loop of [Signature.__str__]: [pos_only] and [kw_only] are its
    flags [render_pos_only_separator] and [render_kw_only_separator]. *)
Fixpoint Signature_render (ps : list Param) (pos_only kw_only : bool)
    : list string :=
  match ps with
  | [] => if pos_only then ["/"] else []
  | p :: ps' =>
      let formatted := Param_str p in
      let is_pos := match p_kind p with POSITIONAL_ONLY => true | _ => false end in
      let slash := if negb is_pos && pos_only then ["/"] else [] in
      let pos_only' := is_pos in
      let star :=
        match p_kind p with
        | KEYWORD_ONLY => if kw_only then ["*"] else []
        | _ => []
        end in
      let kw_only' :=
        match p_kind p with
        | VAR_POSITIONAL | KEYWORD_ONLY => false
        | _ => kw_only
        end in
      (slash ++ star ++ formatted :: Signature_render ps' pos_only' kw_only')%list
  end.

(** [str(signature(f))]. *)
Definition Signature_str (f : pyfunc) : string :=
  let rendered :=
    "(" ++ String.concat ", " (Signature_render (parameters f) false true) ++ ")" in
  match return_annotation f with
  | Some a => rendered ++ " -> " ++ formatannotation a
  | None => rendered
  end.

End Signature.

(** ** pydantic: fields, models, validation *)

(** [Extra]: what a model does with keys that are not fields. *)
Inductive Extra : Type := allow | ignore | forbid.

(** [ModelField]: [default] is [None] for a required field. *)
Record ModelField : Type := mk_field {
  f_name : string;
  outer_type_ : pytype;
  default : pyval;
  required : bool;
  allow_none : bool
}.

(** [Optional[...]] at the head of an annotation: the type analysis of a
    field notes that [None] is allowed and starts again on the type inside,
    which becomes the [outer_type_] of the field. *)
Fixpoint strip_optional (t : pytype) : pytype :=
  match t with
  | TOptional a => strip_optional a
  | _ => t
  end.

(** The type the analysis leaves in [ModelField.type_]: the item type of a
    list or tuple and the value type of a mapping, one level down and no
    further; the type itself when it is no container. *)
Definition inner_type (t : pytype) : pytype :=
  match strip_optional t with
  | TList a | TTuple a => a
  | TDict _ v => v
  | t' => t'
  end.

Definition type_ (f : ModelField) : pytype := inner_type (outer_type_ f).

(** The class for which [find_validators] raises, if any: the analysis
    makes a field of the key type of a mapping, then one of the item or value
    type, and every such field needs a validator. *)
Fixpoint no_validator (t : pytype) : option string :=
  match t with
  | TAny | TInt | TStr | TBool => None
  | TList a | TTuple a | TOptional a => no_validator a
  | TDict k v =>
      match no_validator k with
      | Some c => Some c
      | None => no_validator v
      end
  | TClass qualname => Some qualname
  end.

(** [ModelField.infer] on a pair [(annotation, value)]; the value [None]
    is [...], the mark of a required field. *)
Definition infer_field (name : string) (annotation : pytype)
    (value : option pyval) : ModelField :=
  let nullable :=
    match annotation with
    | TAny | TOptional _ => true
    | _ => false
    end in
  match value with
  | None => mk_field name (strip_optional annotation) VNone true nullable
  | Some d =>
      mk_field name (strip_optional annotation) d false (nullable || is_None d)
  end.

(** A model class: its name, [__fields__] in order, [Config.extra]. *)
Record BaseModel : Type := mk_model {
  model_name : string;
  __fields__ : list ModelField;
  extra : Extra
}.

(** [fields[key] = value] on an insertion-ordered mapping. *)
Fixpoint dict_set {V : Type} (key : string) (value : V)
    (fields : list (string * V)) : list (string * V) :=
  match fields with
  | [] => [(key, value)]
  | (k, v) :: rest =>
      if String.eqb key k then (k, value) :: rest
      else (k, v) :: dict_set key value rest
  end.

Fixpoint assoc {V : Type} (key : string) (fields : list (string * V))
    : option V :=
  match fields with
  | [] => None
  | (k, v) :: rest => if String.eqb key k then Some v else assoc key rest
  end.

(** A base class for [create_model]: the public attributes of the class,
    which a field may not shadow, and its [Config.extra]. *)
Record model_base : Type := mk_base {
  attributes : list string;
  base_extra : Extra
}.

(** [pydantic.BaseModel]. *)
Definition pydantic_BaseModel : model_base :=
  mk_base
    ["Config"; "construct"; "copy"; "dict"; "from_orm"; "json"; "parse_file";
     "parse_obj"; "parse_raw"; "schema"; "schema_json"; "update_forward_refs";
     "validate"]
    ignore.

(** The base class of the model [validate_arguments] creates: it adds the
    four validators of the placeholder fields and forbids extra keys. *)
Definition DecoratorBaseModel : model_base :=
  mk_base
    (attributes pydantic_BaseModel
       ++ ["check_args"; "check_kwargs"; "check_positional_only";
           "check_duplicate_kwargs"])%list
    forbid.

(** [is_valid_field]: a name that starts with an underscore is no field. *)
Definition is_valid_field (name : string) : bool :=
  negb (String.prefix "_" name).

(** The loop of the metaclass over the annotated names of the namespace,
    in order: a name that is no field is passed over; a field name must not
    shadow an attribute of the base ([NameError], naming the field), and its
    type must have validators ([RuntimeError], naming the class). *)
Fixpoint collect_fields (base : model_base)
    (fields : list (string * (pytype * option pyval)))
    : result (list ModelField) :=
  match fields with
  | [] => Ok []
  | (name, (annotation, value)) :: rest =>
      if is_valid_field name then
        if existsb (String.eqb name) (attributes base)
        then Raise (mk_exn NameError name)
        else
          match no_validator annotation with
          | Some c => Raise (mk_exn RuntimeError ("no validator found for " ++ c))
          | None =>
              (fs <- collect_fields base rest ;;
               Ok (infer_field name annotation value :: fs))%result
          end
      else collect_fields base rest
  end.

(** [create_model(name, __base__=base, **fields)].  The values of the
    fields become the namespace of the class, where the metaclass first
    looks for a [Config]: a true value under that name is taken for a
    configuration class and fails as a base of one ([TypeError]).  The
    loop over the fields follows.  (The names of the class namespace itself,
    which start with two underscores, are not considered apart from the
    other names that start with an underscore.) *)
Definition create_model (name : string) (base : model_base)
    (fields : list (string * (pytype * option pyval))) : result BaseModel :=
  let config_from_namespace :=
    match assoc "Config" fields with
    | Some (_, None) => true
    | Some (_, Some value) => truthy value
    | None => false
    end in
  if config_from_namespace
  then Raise (mk_exn TypeError "metaclass conflict")
  else (fs <- collect_fields base fields ;;
        Ok (mk_model name fs (base_extra base)))%result.

(** [cls.schema()["properties"]]: one entry per field, in order; the
    field type stands for the JSON schema of the property. *)
Definition properties (cls : BaseModel) : list (string * pytype) :=
  map (fun f => (f_name f, outer_type_ f)) (__fields__ cls).

Definition field_named (name : string) (cls : BaseModel) : option ModelField :=
  find (fun f => String.eqb name (f_name f)) (__fields__ cls).

Section Validation.
Context `{Runtime}.

(** One round of the loop of [validate_model]: the value of the field,
    or [None] for an error (missing, null, rejected by the validators). *)
Definition validate_field (f : ModelField) (input_data : dict)
    : option pyval :=
  match lookup (f_name f) input_data with
  | None => if required f then None else Some (default f)
  | Some v =>
      if is_None v then (if allow_none f then Some VNone else None)
      else find_validators (outer_type_ f) v
  end.

Definition is_error (o : option pyval) : bool :=
  match o with
  | None => true
  | Some _ => false
  end.

(** The keys of the input that name no field. *)
Definition extra_keys (cls : BaseModel) (input_data : dict) : dict :=
  filter (fun kv => negb (existsb (fun f => String.eqb (fst kv) (f_name f))
                                  (__fields__ cls)))
         input_data.

(** [cls.validate(value)] on a mapping: the values of the model, or
    [ValidationError]. *)
Definition validate (cls : BaseModel) (value : dict) : result dict :=
  let errors :=
    existsb (fun f => is_error (validate_field f value)) (__fields__ cls) in
  let extra_errors :=
    match extra cls with
    | forbid => match extra_keys cls value with [] => false | _ => true end
    | _ => false
    end in
  if errors || extra_errors
  then Raise (mk_exn ValidationError (model_name cls))
  else
    let values :=
      flat_map (fun f => match validate_field f value with
                         | Some v => [(f_name f, v)]
                         | None => []
                         end) (__fields__ cls) in
    match extra cls with
    | allow => Ok (values ++ extra_keys cls value)%list
    | _ => Ok values
    end.

End Validation.

(** ** pydantic: [validate_arguments] *)

Definition ALT_V_ARGS : string := "v__args".
Definition ALT_V_KWARGS : string := "v__kwargs".
Definition V_POSITIONAL_ONLY_NAME : string := "v__positional_only".
Definition V_DUPLICATE_KWARGS : string := "v__duplicate_kwargs".

(** The state of the loop of [ValidatedFunction.__init__]. *)
Record vf_state : Type := mk_vf {
  v_args_name : string;
  v_kwargs_name : string;
  takes_args : bool;
  takes_kwargs : bool;
  vf_fields : list (string * (pytype * option pyval))
}.

Definition vf_step (st : vf_state) (p : Param) : vf_state :=
  let name := p_name p in
  let annotation :=
    match p_annotation p with
    | None => TAny
    | Some a => a
    end in
  let default := p_default p in
  let fields := vf_fields st in
  match p_kind p with
  | POSITIONAL_ONLY =>
      mk_vf (v_args_name st) (v_kwargs_name st) (takes_args st) (takes_kwargs st)
        (dict_set V_POSITIONAL_ONLY_NAME (TList TStr, Some VNone)
           (dict_set name (annotation, default) fields))
  | POSITIONAL_OR_KEYWORD =>
      mk_vf (v_args_name st) (v_kwargs_name st) (takes_args st) (takes_kwargs st)
        (dict_set V_DUPLICATE_KWARGS (TList TStr, Some VNone)
           (dict_set name (annotation, default) fields))
  | KEYWORD_ONLY =>
      mk_vf (v_args_name st) (v_kwargs_name st) (takes_args st) (takes_kwargs st)
        (dict_set name (annotation, default) fields)
  | VAR_POSITIONAL =>
      mk_vf name (v_kwargs_name st) true (takes_kwargs st)
        (dict_set name (TTuple annotation, Some VNone) fields)
  | VAR_KEYWORD =>
      mk_vf (v_args_name st) name (takes_args st) true
        (dict_set name (TDict TStr annotation, Some VNone) fields)
  end.

Definition in_fields {V : Type} (key : string) (fields : list (string * V))
    : bool :=
  existsb (fun kv => String.eqb key (fst kv)) fields.

(** [validate_arguments(func).model]: the model of the parameters, with
    the placeholder fields pydantic adds for its own checks; a reserved
    parameter name is refused first, and the creation of the model can fail
    as [create_model] does.  (The class is named after the function; its
    name plays no role below.) *)
Definition validate_arguments_model (func : pyfunc) : result BaseModel :=
  if existsb (fun p => existsb (String.eqb (p_name p))
                         [ALT_V_ARGS; ALT_V_KWARGS; V_POSITIONAL_ONLY_NAME;
                          V_DUPLICATE_KWARGS])
       (parameters func)
  then Raise (mk_exn ConfigError "reserved argument name")
  else
    let st := fold_left vf_step (parameters func)
                (mk_vf "args" "kwargs" false false []) in
    let fields := vf_fields st in
    let v_args_name :=
      if negb (takes_args st) && in_fields (v_args_name st) fields
      then ALT_V_ARGS else v_args_name st in
    let v_kwargs_name :=
      if negb (takes_kwargs st) && in_fields (v_kwargs_name st) fields
      then ALT_V_KWARGS else v_kwargs_name st in
    let fields :=
      if negb (takes_args st)
      then dict_set v_args_name (TList TAny, Some VNone) fields else fields in
    let fields :=
      if negb (takes_kwargs st)
      then dict_set v_kwargs_name (TDict TAny TAny, Some VNone) fields
      else fields in
    create_model (__name__ func) DecoratorBaseModel fields.

(** ** Strings *)

(** The ASCII characters [str.isspace] accepts. *)
Definition isspace (c : ascii) : bool :=
  let n := nat_of_ascii c in
  (Nat.leb 9 n && Nat.leb n 13) || (Nat.leb 28 n && Nat.leb n 32).

Fixpoint lstrip (s : string) : string :=
  match s with
  | EmptyString => EmptyString
  | String c s' => if isspace c then lstrip s' else s
  end.

Fixpoint rstrip (s : string) : string :=
  match s with
  | EmptyString => EmptyString
  | String c s' =>
      match rstrip s' with
      | EmptyString => if isspace c then EmptyString else String c EmptyString
      | t => String c t
      end
  end.

(** [s.strip()]. *)
Definition strip (s : string) : string := rstrip (lstrip s).

(** [a or b] on optional strings: [None] and the empty string are falsy. *)
Definition or_else (a b : option string) : option string :=
  match a with
  | Some EmptyString | None => b
  | Some _ => a
  end.

(** ** [langchain/tools/base.py] *)

(** [Union[str, Dict]]. *)
Inductive ToolInput : Type :=
| InputStr (s : string)
| InputDict (d : dict).

(** [_create_subset_model]: the dictionary comprehension keeps the names
    that are fields of [model], each once. *)
Definition _create_subset_model (name : string) (model : BaseModel)
    (field_names : list string) : result BaseModel :=
  let fields :=
    fold_left
      (fun fields field_name =>
         match field_named field_name model with
         | Some f => dict_set field_name (type_ f, Some (default f)) fields
         | None => fields
         end)
      field_names [] in
  create_model name pydantic_BaseModel fields.

(** The comprehension of [get_filtered_args]: [schema[k]] for a [k] that
    is not a property is a [KeyError]. *)
Fixpoint filter_args (schema : list (string * pytype)) (valid_keys : list string)
    : result (list (string * pytype)) :=
  match valid_keys with
  | [] => Ok []
  | k :: rest =>
      match assoc k schema with
      | None => Raise (mk_exn KeyError k)
      | Some v => (d <- filter_args schema rest ;; Ok ((k, v) :: d))%result
      end
  end.

(** [get_filtered_args]. *)
Definition get_filtered_args (inferred_model : BaseModel) (func : pyfunc)
    : result (list (string * pytype)) :=
  let schema := properties inferred_model in
  let valid_keys := map p_name (parameters func) in
  filter_args schema valid_keys.

(** [create_schema_from_function]. *)
Definition create_schema_from_function (model_name : string) (func : pyfunc)
    : result BaseModel :=
  (inferred_model <- validate_arguments_model func ;;
   filtered_args <- get_filtered_args inferred_model func ;;
   _create_subset_model (model_name ++ "Schema") inferred_model
     (map fst filtered_args))%result.

(** [BaseTool]: the fields of the model, and the two methods a subclass
    implements. *)
Module BaseTool.
Record t : Type := mk {
  name : string;
  description : string;
  args_schema : option BaseModel;
  return_direct : bool;
  verbose : bool;
  callbacks : Callbacks;
  _run : pyfunc;
  _arun : pyfunc
}.
End BaseTool.

(** [next(iter(keys))]. *)
Definition next_iter (l : list string) : result string :=
  match l with
  | k :: _ => Ok k
  | [] => Raise (mk_exn StopIteration "")
  end.

(** [BaseTool._to_args_and_kwargs]. *)
Definition _to_args_and_kwargs (tool_input : ToolInput) : list pyval * dict :=
  match tool_input with
  | InputStr s => ([VStr s], [])
  | InputDict d => ([], d)
  end.

(** The hooks of the notification channel, as called with explicit
    keywords and an unpacked mapping.  The channel is taken to accept every
    keyword; what it does with a notification is its own matter. *)
Definition on_tool_start (cm : CallbackManager)
    (serialized : list (string * string)) (input_str : string)
    (explicit star : dict) : M RunManager :=
  (kw <- lift (keywords explicit star) ;;
   emit (ToolStart cm serialized input_str kw) ;;
   ret (mk_run_manager cm))%tool.

Definition on_tool_end (rm : RunManager) (output : string)
    (explicit star : dict) : M unit :=
  (kw <- lift (keywords explicit star) ;;
   emit (ToolEnd rm output kw))%tool.

Definition on_tool_error (rm : RunManager) (e : exn) : M unit :=
  emit (ToolError rm e).

(** The call expression [self._run(...)] / [self._arun(...)]. *)
Definition call (which : callee) (f : pyfunc) (args : list pyval)
    (explicit star : dict) : M pyval :=
  (emit (Called which args explicit star) ;;
   lift (py_call f args explicit star))%tool.

Section Invoker.
Context `{Runtime}.

(** [BaseTool._parse_input]. *)
Definition _parse_input (self : BaseTool.t) (tool_input : ToolInput)
    : result unit :=
  let input_args := BaseTool.args_schema self in
  match tool_input with
  | InputStr s =>
      match input_args with
      | Some cls =>
          (key_ <- next_iter (map f_name (__fields__ cls)) ;;
           _ <- validate cls [(key_, VStr s)] ;;
           Ok tt)%result
      | None => Ok tt
      end
  | InputDict d =>
      match input_args with
      | Some cls => (_ <- validate cls d ;; Ok tt)%result
      | None => Ok tt
      end
  end.

(** [BaseTool.args]. *)
Definition args (self : BaseTool.t) : result (list (string * pytype)) :=
  match BaseTool.args_schema self with
  | Some cls => Ok (properties cls)
  | None =>
      (inferred_model <- validate_arguments_model (BaseTool._run self) ;;
       get_filtered_args inferred_model (BaseTool._run self))%result
  end.


(** The string passed to [on_tool_start]. *)
Definition input_str (tool_input : ToolInput) : string :=
  match tool_input with
  | InputStr s => s
  | InputDict d => str_dict d
  end.

(** [BaseTool.run]. *)
Definition run (self : BaseTool.t) (tool_input : ToolInput)
    (verbose : option bool) (start_color color : option string)
    (callbacks : Callbacks) (kwargs : dict) : M pyval :=
  (lift (_parse_input self tool_input) ;;
   let verbose_ :=
     match verbose with
     | Some v => if negb (BaseTool.verbose self) then v
                 else BaseTool.verbose self
     | None => BaseTool.verbose self
     end in
   let callback_manager :=
     mk_manager false callbacks (BaseTool.callbacks self) verbose_ in
   let new_arg_supported :=
     has_parameter "run_manager" (BaseTool._run self) in
   run_manager <-
     on_tool_start callback_manager
       [("name", BaseTool.name self);
        ("description", BaseTool.description self)]
       (input_str tool_input)
       [("color", of_opt_str start_color)] kwargs ;;
   observation <-
     try_except
       (let '(tool_args, tool_kwargs) := _to_args_and_kwargs tool_input in
        if new_arg_supported
        then call The_run (BaseTool._run self) tool_args
               [("run_manager", VRunManager run_manager)] tool_kwargs
        else call The_run (BaseTool._run self) tool_args [] tool_kwargs)
       except_Exception_KeyboardInterrupt
       (fun e => on_tool_error run_manager e ;; raise e) ;;
   on_tool_end run_manager (py_str observation)
     [("color", of_opt_str color); ("name", VStr (BaseTool.name self))]
     kwargs ;;
   ret observation)%tool.

(** [BaseTool.arun], awaited; each [await] inside it runs the awaited
    call to its end. *)
Definition arun (self : BaseTool.t) (tool_input : ToolInput)
    (verbose : option bool) (start_color color : option string)
    (callbacks : Callbacks) (kwargs : dict) : M pyval :=
  async_def
  (lift (_parse_input self tool_input) ;;
   let verbose_ :=
     match verbose with
     | Some v => if negb (BaseTool.verbose self) then v
                 else BaseTool.verbose self
     | None => BaseTool.verbose self
     end in
   let callback_manager :=
     mk_manager true callbacks (BaseTool.callbacks self) verbose_ in
   let new_arg_supported :=
     has_parameter "run_manager" (BaseTool._arun self) in
   run_manager <-
     on_tool_start callback_manager
       [("name", BaseTool.name self);
        ("description", BaseTool.description self)]
       (input_str tool_input)
       [("color", of_opt_str start_color)] kwargs ;;
   observation <-
     try_except
       (let '(tool_args, tool_kwargs) := _to_args_and_kwargs tool_input in
        if new_arg_supported
        then call The_arun (BaseTool._arun self) tool_args
               [("run_manager", VRunManager run_manager)] tool_kwargs
        else call The_arun (BaseTool._arun self) tool_args [] kwargs)
       except_Exception_KeyboardInterrupt
       (fun e => on_tool_error run_manager e ;; raise e) ;;
   on_tool_end run_manager (py_str observation)
     [("color", of_opt_str color); ("name", VStr (BaseTool.name self))]
     kwargs ;;
   ret observation)%tool.

(** [BaseTool.__call__]. *)
Definition __call__ (self : BaseTool.t) (tool_input : string)
    (callbacks : Callbacks) : M pyval :=
  run self (InputStr tool_input) None (Some "green") (Some "green")
    callbacks [].

End Invoker.

(** [StructuredTool]: its schema is required; [coroutine] is optional. *)
Module StructuredTool.
Record t : Type := mk {
  name : string;
  description : string;
  args_schema : BaseModel;
  return_direct : bool;
  verbose : bool;
  callbacks : Callbacks;
  func : pyfunc;
  coroutine : option pyfunc
}.
End StructuredTool.

(** The parameters of [StructuredTool._run] and [StructuredTool._arun], as
    [inspect.signature] reports them for the bound method. *)
Definition structured_parameters : list Param :=
  [ mk_param "args" VAR_POSITIONAL (Some TAny) None;
    mk_param "run_manager" KEYWORD_ONLY
      (Some (TOptional (TClass "AsyncCallbackManagerForToolRun")))
      (Some VNone);
    mk_param "kwargs" VAR_KEYWORD (Some TAny) None ].

(** [run_manager.get_child() if run_manager else None]. *)
Definition child_callbacks (run_manager : pyval) : result pyval :=
  if truthy run_manager then
    match run_manager with
    | VRunManager rm => Ok (VChild rm)
    | _ => Raise (mk_exn AttributeError "get_child")
    end
  else Ok VNone.

(** The body shared by [_run] and [_arun] once the callable is known:
    [kw] holds the keywords of the call, [run_manager] among them or not. *)
Definition structured_body (f : pyfunc) (args : list pyval) (kw : dict)
    : result pyval :=
  let run_manager :=
    match lookup "run_manager" kw with
    | Some v => v
    | None => VNone
    end in
  let kwargs := remove_key "run_manager" kw in
  let new_argument_supported := has_parameter "callbacks" f in
  if new_argument_supported
  then (cb <- child_callbacks run_manager ;;
        py_call f args [("callbacks", cb)] kwargs)%result
  else py_call f args [] kwargs.

(** [StructuredTool._run]. *)
Definition StructuredTool__run (self : StructuredTool.t) : pyfunc :=
  mk_func "_run" (Some "Use the tool.") structured_parameters (Some TAny)
    (structured_body (StructuredTool.func self)).

(** [StructuredTool._arun]. *)
Definition StructuredTool__arun (self : StructuredTool.t) : pyfunc :=
  mk_func "_arun" (Some "Use the tool asynchronously.") structured_parameters
    (Some TStr)
    (fun args kw =>
       escaped_result
         match StructuredTool.coroutine self with
         | Some coroutine => structured_body coroutine args kw
         | None =>
             Raise (mk_exn NotImplementedError "Tool does not support async")
         end).

(** A structured tool seen as the [BaseTool] it is. *)
Definition as_BaseTool (self : StructuredTool.t) : BaseTool.t :=
  BaseTool.mk (StructuredTool.name self) (StructuredTool.description self)
    (Some (StructuredTool.args_schema self))
    (StructuredTool.return_direct self) (StructuredTool.verbose self)
    (StructuredTool.callbacks self)
    (StructuredTool__run self) (StructuredTool__arun self).

(** The fields [from_function] can receive through its extra keywords. *)
Record tool_kwargs : Type := mk_tool_kwargs {
  kw_coroutine : option pyfunc;
  kw_verbose : bool;
  kw_callbacks : Callbacks
}.

Definition no_kwargs : tool_kwargs := mk_tool_kwargs None false None.

Section Factory.
Context `{Runtime}.

(** [StructuredTool.from_function]. *)
Definition from_function (func : pyfunc) (name description : option string)
    (return_direct : bool) (args_schema : option BaseModel)
    (infer_schema : bool) (kwargs : tool_kwargs)
    : result StructuredTool.t :=
  let name :=
    match name with
    | Some EmptyString | None => __name__ func
    | Some n => n
    end in
  let description := or_else description (__doc__ func) in
  (description <-
     match description with
     | Some d => Ok d
     | None =>
         Raise (mk_exn AssertionError
           "Function must have a docstring if description not provided.")
     end ;;
   let description :=
     name ++ Signature_str func ++ " - " ++ strip description in
   let _args_schema := args_schema in
   _args_schema <-
     match _args_schema with
     | None =>
         if infer_schema
         then (s <- create_schema_from_function (name ++ "Schema") func ;;
               Ok (Some s))
         else Ok None
     | Some s => Ok (Some s)
     end ;;
   match _args_schema with
   | Some s =>
       Ok (StructuredTool.mk name description s return_direct
             (kw_verbose kwargs) (kw_callbacks kwargs) func
             (kw_coroutine kwargs))
   | None => Raise (mk_exn ValidationError "StructuredTool")
   end)%result.

End Factory.

(** ** Worked examples *)

Module Examples.

Definition ascii_upper (c : ascii) : ascii :=
  let n := nat_of_ascii c in
  if Nat.leb 97 n && Nat.leb n 122 then ascii_of_nat (n - 32) else c.

(** [str.upper] on ASCII text. *)
Fixpoint str_upper (s : string) : string :=
  match s with
  | EmptyString => EmptyString
  | String c s' => String (ascii_upper c) (str_upper s')
  end.

(** [def upper(text: str) -> str: return text.upper()]. *)
Definition upper : pyfunc :=
  mk_func "upper" None
    [mk_param "text" POSITIONAL_OR_KEYWORD (Some TStr) None] (Some TStr)
    (fun args kw =>
       match args, kw with
       | [VStr text], [] => Ok (VStr (str_upper text))
       | [], [(k, VStr text)] =>
           if String.eqb k "text" then Ok (VStr (str_upper text))
           else Raise (mk_exn TypeError "upper() got an unexpected keyword")
       | _, _ => Raise (mk_exn TypeError "upper() arguments")
       end).

(** [def add(a: int, b: int) -> int], documented [Adds two numbers.] *)
Definition add : pyfunc :=
  mk_func "add" (Some "Adds two numbers.")
    [mk_param "a" POSITIONAL_OR_KEYWORD (Some TInt) None;
     mk_param "b" POSITIONAL_OR_KEYWORD (Some TInt) None] (Some TInt)
    (fun args kw =>
       match args, lookup "a" kw, lookup "b" kw with
       | [VInt a; VInt b], None, None => Ok (VInt (a + b))
       | [VInt a], None, Some (VInt b) => Ok (VInt (a + b))
       | [], Some (VInt a), Some (VInt b) => Ok (VInt (a + b))
       | _, _, _ => Raise (mk_exn TypeError "add() arguments")
       end).

(** [add] without its docstring. *)
Definition add_undocumented : pyfunc :=
  mk_func "add" None (parameters add) (return_annotation add) (body add).

(** The schema [class TextInput(BaseModel): text: str]. *)
Definition TextInput : BaseModel :=
  mk_model "TextInput" [infer_field "text" TStr None] ignore.

(** The structured tool around [upper], without a coroutine. *)
Definition upper_tool : StructuredTool.t :=
  StructuredTool.mk "upper" "upper(text: str) -> str - Upper-case a text."
    TextInput false false None upper None.

(** A schema of two fields, the second with a default:
    [query: str] and [lang: str = 'en']. *)
Definition Search : BaseModel :=
  mk_model "Search"
    [infer_field "query" TStr None; infer_field "lang" TStr (Some (VStr "en"))]
    ignore.

(** A function of the two parameters of [Search]. *)
Definition search : pyfunc :=
  mk_func "search" (Some "Search a corpus.")
    [mk_param "query" POSITIONAL_OR_KEYWORD (Some TStr) None;
     mk_param "lang" POSITIONAL_OR_KEYWORD (Some TStr) (Some (VStr "en"))]
    (Some TStr)
    (fun args kw =>
       match args, lookup "query" kw with
       | [VStr q], None => Ok (VStr q)
       | [], Some (VStr q) => Ok (VStr q)
       | _, _ => Raise (mk_exn TypeError "search() arguments")
       end).

Definition search_tool : StructuredTool.t :=
  StructuredTool.mk "search" "search - Search a corpus." Search false false
    None search None.

(** A tool without a schema whose [_run] takes one string, does not
    declare [run_manager], and raises what [outcome] says. *)
Definition plain_tool (outcome : string -> result pyval) : BaseTool.t :=
  let method name :=
    mk_func name None [mk_param "query" POSITIONAL_OR_KEYWORD (Some TStr) None]
      (Some TStr)
      (fun args _ =>
         match args with
         | [VStr q] => outcome q
         | _ => Raise (mk_exn TypeError "arguments")
         end) in
  BaseTool.mk "plain" "A plain tool." None false false None
    (method "_run") (method "_arun").

(** A schema of two required fields: [a: int] and [b: int]. *)
Definition AddInput : BaseModel :=
  mk_model "AddInput" [infer_field "a" TInt None; infer_field "b" TInt None]
    ignore.

Definition add_tool : StructuredTool.t :=
  StructuredTool.mk "add" "add(a: int, b: int) -> int - Adds two numbers."
    AddInput false false None add None.

(** A schema without fields, and a tool that declares it. *)
Definition Empty : BaseModel := mk_model "Empty" [] ignore.

Definition empty_tool : BaseTool.t :=
  BaseTool.mk "empty" "A tool without arguments." (Some Empty) false false
    None (BaseTool._run (plain_tool (fun q => Ok (VStr q))))
    (BaseTool._arun (plain_tool (fun q => Ok (VStr q)))).

(** The default of [start_color] and [color]. *)
Definition green : option string := Some "green".

(** The mapping [{'text': 'hi'}]. *)
Definition hi_input : ToolInput := InputDict [("text", VStr "hi")].

(** A plain tool that echoes its input, one that raises an error of
    its own, and one that exits the interpreter. *)
Definition echo_tool : BaseTool.t := plain_tool (fun q => Ok (VStr q)).

Definition boom : exn := mk_exn (UserError 0) "boom".

Definition failing_tool : BaseTool.t := plain_tool (fun _ => Raise boom).

Definition exiting_tool : BaseTool.t :=
  plain_tool (fun _ => Raise (mk_exn SystemExit "0")).

(** [echo_tool] with its [verbose] flag set. *)
Definition loud_tool : BaseTool.t :=
  BaseTool.mk "loud" "A verbose tool." None false true None
    (BaseTool._run echo_tool) (BaseTool._arun echo_tool).

End Examples.

(** ** [ToolMetaclass] and the root validator of [BaseTool] *)

(** What the metaclass reads in the namespace of a class body: whether
    [dct.get("args_schema")] is [None], and the annotation found under
    [__annotations__["args_schema"]], if any.  An annotation is [None], the
    class [BaseModel] itself, or anything else (given by its text). *)
Inductive schema_annotation : Type :=
| Ann_None
| Ann_BaseModel
| Ann_other (text : string).

Record class_dct : Type := mk_dct {
  dct_has_args_schema : bool;
  dct_annotations : option (list (string * schema_annotation))
}.

(** The outcome of [ToolMetaclass.__new__]: the class goes on to
    pydantic's metaclass, or [SchemaAnnotationError] is raised for the class
    [name] with the annotation found. *)
Inductive class_outcome : Type :=
| PassedToPydantic
| SchemaAnnotationError (name : string) (got : option schema_annotation).

(** [ToolMetaclass.__new__]. *)
Definition ToolMetaclass__new__ (name : string) (dct : class_dct)
    : class_outcome :=
  if dct_has_args_schema dct then
    let schema_annotations :=
      match dct_annotations dct with
      | Some a => a
      | None => []
      end in
    let args_schema_type := assoc "args_schema" schema_annotations in
    match args_schema_type with
    | None => SchemaAnnotationError name None
    | Some Ann_None => SchemaAnnotationError name (Some Ann_None)
    | Some Ann_BaseModel => SchemaAnnotationError name (Some Ann_BaseModel)
    | Some (Ann_other _) => PassedToPydantic
    end
  else PassedToPydantic.

(** [values.pop(key, None)] on an insertion-ordered mapping whose values
    may be [None]: the value, and the mapping without the key. *)
Definition dict_pop {V : Type} (key : string) (values : list (string * option V))
    : option V * list (string * option V) :=
  (match assoc key values with
   | Some v => v
   | None => None
   end,
   filter (fun kv => negb (String.eqb key (fst kv))) values).

(** [BaseTool.raise_deprecation]: the values after the validator, and the
    number of deprecation warnings issued. *)
Definition raise_deprecation {V : Type} (values : list (string * option V))
    : list (string * option V) * nat :=
  match assoc "callback_manager" values with
  | Some (Some _) =>
      let (popped, values') := dict_pop "callback_manager" values in
      (dict_set "callbacks" popped values', 1)
  | _ => (values, 0)
  end.

(** ** Vocabulary of the schema inferencer *)

(** The names [validate_arguments] keeps for itself. *)
Definition reserved_name (name : string) : bool :=
  existsb (String.eqb name)
    [ALT_V_ARGS; ALT_V_KWARGS; V_POSITIONAL_ONLY_NAME; V_DUPLICATE_KWARGS].



(** The field [create_model] makes of an entry. *)
Definition entry_field (e : string * (pytype * option pyval)) : ModelField :=
  infer_field (fst e) (fst (snd e)) (snd (snd e)).

(** A name and a type of which [create_model], on the base [base], makes
    a field: the name does not start with an underscore and shadows no
    attribute of the base, and the type has validators. *)
Definition field_entry (base : model_base) (name : string)
    (annotation : pytype) : bool :=
  is_valid_field name
  && negb (existsb (String.eqb name) (attributes base))
  && match no_validator annotation with
     | None => true
     | Some _ => false
     end.



(** A model as pydantic builds them: every field has a name and a type
    [create_model] accepts. *)
Definition built_model (model : BaseModel) : bool :=
  forallb (fun f => field_entry pydantic_BaseModel (f_name f) (outer_type_ f))
    (__fields__ model).

(** The entry [_create_subset_model] takes from a field of the model. *)
Definition subset_entry (model : BaseModel) (field_name : string)
    : list (string * (pytype * option pyval)) :=
  match field_named field_name model with
  | Some f => [(field_name, (type_ f, Some (default f)))]
  | None => []
  end.

(** ** Counting notifications *)

Definition is_start (ev : event) : bool :=
  match ev with ToolStart _ _ _ _ => true | _ => false end.

Definition is_end (ev : event) : bool :=
  match ev with ToolEnd _ _ _ => true | _ => false end.

Definition is_error_event (ev : event) : bool :=
  match ev with ToolError _ _ => true | _ => false end.

Definition count (p : event -> bool) (tr : list event) : nat :=
  length (filter p tr).

(** ** Further examples *)

Module MoreExamples.

(** [def tag(text: List[str], *rest: int, sep: str = '-', **opts)]. *)
Definition tag : pyfunc :=
  mk_func "tag" (Some "  Tag a text.  ")
    [mk_param "text" POSITIONAL_OR_KEYWORD (Some (TList TStr)) None;
     mk_param "rest" VAR_POSITIONAL (Some TInt) None;
     mk_param "sep" KEYWORD_ONLY (Some TStr) (Some (VStr "-"));
     mk_param "opts" VAR_KEYWORD None None]
    None
    (fun _ _ => Ok VNone).


(** A model with containers in its field types:
    [rows: List[List[int]]], [limit: Optional[int] = 3] and
    [cells: List[Optional[int]] = None]. *)
Definition Grid : BaseModel :=
  mk_model "Grid"
    [infer_field "rows" (TList (TList TInt)) None;
     infer_field "limit" (TOptional TInt) (Some (VInt 3));
     infer_field "cells" (TList (TOptional TInt)) (Some VNone)]
    forbid.

(** [def hidden(_x: int)]: a parameter whose name starts with an
    underscore. *)
Definition hidden : pyfunc :=
  mk_func "hidden" (Some "Hidden.")
    [mk_param "_x" POSITIONAL_OR_KEYWORD (Some TInt) None]
    None (fun _ _ => Ok VNone).

(** [def shadow(dict: int)]: a parameter named as a method of
    [BaseModel]. *)
Definition shadow : pyfunc :=
  mk_func "shadow" (Some "Shadow.")
    [mk_param "dict" POSITIONAL_OR_KEYWORD (Some TInt) None]
    None (fun _ _ => Ok VNone).

(** A function that declares [callbacks] and returns what it received
    under that keyword. *)
Definition traced : pyfunc :=
  mk_func "traced" (Some "Return the callbacks.")
    [mk_param "text" POSITIONAL_OR_KEYWORD (Some TStr) None;
     mk_param "callbacks" POSITIONAL_OR_KEYWORD None (Some VNone)]
    None
    (fun _ kw =>
       match lookup "callbacks" kw with
       | Some v => Ok v
       | None => Ok VNone
       end).

Definition traced_tool : StructuredTool.t :=
  StructuredTool.mk "traced" "traced(text: str, callbacks=None) - Return the callbacks."
    Examples.TextInput false false None traced None.

(** The tool around [upper] with [upper] as its coroutine too. *)
Definition async_upper_tool : StructuredTool.t :=
  StructuredTool.mk "upper" "upper(text: str) -> str - Upper-case a text."
    Examples.TextInput false false None Examples.upper (Some Examples.upper).


(** A tool without a schema whose [_run] annotates [run_manager] with
    the class of the handle:
    [_run(self, query: str, run_manager: Optional[CallbackManagerForToolRun] = None)]. *)
Definition annotated_tool : BaseTool.t :=
  let method name :=
    mk_func name None
      [mk_param "query" POSITIONAL_OR_KEYWORD (Some TStr) None;
       mk_param "run_manager" POSITIONAL_OR_KEYWORD
         (Some (TOptional (TClass "CallbackManagerForToolRun"))) (Some VNone)]
      (Some TStr) (fun _ _ => Ok VNone) in
  BaseTool.mk "annotated" "An annotated tool." None false false None
    (method "_run") (method "_arun").

(** [def clash(v__args: str)], documented: a parameter name that
    [validate_arguments] reserves. *)
Definition clash : pyfunc :=
  mk_func "clash" (Some "Clash.")
    [mk_param "v__args" POSITIONAL_OR_KEYWORD (Some TStr) None]
    None (fun _ _ => Ok VNone).

End MoreExamples.

(** ** How a call ends *)

Section Completion.
Context `{Runtime}.

(** What [run] does with the outcome [r] of the call of [_run], from the
    trace [tr1] on: the error hook for a handled exception, the end hook
    for a result. *)
Definition completion (rm : RunManager) (name : string)
    (color : option string) (kwargs : dict) (tr1 : list event)
    (r : result pyval) : result pyval * list event :=
  match r with
  | Raise e =>
      if except_Exception_KeyboardInterrupt e
      then (Raise e, (tr1 ++ [ToolError rm e])%list)
      else (Raise e, tr1)
  | Ok v =>
      match keywords [("color", of_opt_str color); ("name", VStr name)]
              kwargs with
      | Ok kw => (Ok v, (tr1 ++ [ToolEnd rm (py_str v) kw])%list)
      | Raise e => (Raise e, tr1)
      end
  end.

(** The same for [arun], whose exception leaves a coroutine. *)
Definition async_completion (rm : RunManager) (name : string)
    (color : option string) (kwargs : dict) (tr1 : list event)
    (r : result pyval) : result pyval * list event :=
  let (r', tr') := completion rm name color kwargs tr1 r in
  (escaped_result r', tr').

End Completion.

(** The keyword under which a structured tool hands the child callbacks
    to a function that declares [callbacks]. *)
Definition callbacks_keyword (f : pyfunc) (rm : RunManager) : dict :=
  if has_parameter "callbacks" f then [("callbacks", VChild rm)] else [].

(** ** Vocabulary of the statements *)

Section Vocabulary.
Context `{Runtime}.

(** The verbosity a call resolves to. *)
Definition verbose_of (self : BaseTool.t) (verbose : option bool) : bool :=
  if BaseTool.verbose self then true
  else match verbose with
       | Some v => v
       | None => false
       end.

(** The manager [run] ([async] false) or [arun] ([async] true)
    configures, and the handle its start hook returns. *)
Definition manager_of (async : bool) (self : BaseTool.t)
    (verbose : option bool) (callbacks : Callbacks) : CallbackManager :=
  mk_manager async callbacks (BaseTool.callbacks self)
    (verbose_of self verbose).

Definition handle_of (async : bool) (self : BaseTool.t)
    (verbose : option bool) (callbacks : Callbacks) : RunManager :=
  mk_run_manager (manager_of async self verbose callbacks).

(** The start notification of a call. *)
Definition started (async : bool) (self : BaseTool.t)
    (tool_input : ToolInput) (verbose : option bool)
    (start_color : option string) (callbacks : Callbacks) (kwargs : dict)
    : event :=
  ToolStart (manager_of async self verbose callbacks)
    [("name", BaseTool.name self);
     ("description", BaseTool.description self)]
    (input_str tool_input)
    (("color", of_opt_str start_color) :: kwargs).

(** The end notification for the result [v]. *)
Definition ended (rm : RunManager) (self : BaseTool.t) (v : pyval)
    (color : option string) (kwargs : dict) : event :=
  ToolEnd rm (py_str v)
    (("color", of_opt_str color) :: ("name", VStr (BaseTool.name self))
       :: kwargs).

(** The keyword that carries the handle, for a method that declares it. *)
Definition handle_keyword (method : pyfunc) (rm : RunManager) : dict :=
  if has_parameter "run_manager" method
  then [("run_manager", VRunManager rm)]
  else [].

(** The mapping [_parse_input] hands to [cls.validate]. *)
Definition binding_of (cls : BaseModel) (tool_input : ToolInput)
    : result dict :=
  match tool_input with
  | InputStr s =>
      (key_ <- next_iter (map f_name (__fields__ cls)) ;;
       Ok [(key_, VStr s)])%result
  | InputDict d => Ok d
  end.

Definition tool_args (tool_input : ToolInput) : list pyval :=
  fst (_to_args_and_kwargs tool_input).

Definition tool_kwargs_of (tool_input : ToolInput) : dict :=
  snd (_to_args_and_kwargs tool_input).

(** The mapping [arun] unpacks into the call of [_arun]. *)
Definition arun_star (self : BaseTool.t) (tool_input : ToolInput)
    (kwargs : dict) : dict :=
  if has_parameter "run_manager" (BaseTool._arun self)
  then tool_kwargs_of tool_input
  else kwargs.

End Vocabulary.

(** ** Properties *)

Section Properties.
Context `{Runtime}.

Lemma keywords_nil (star : dict) : keywords [] star = Ok star.
Proof. reflexivity. Qed.

Lemma keywords_color (v : pyval) (kwargs : dict) :
  has_key "color" kwargs = false ->
  keywords [("color", v)] kwargs = Ok (("color", v) :: kwargs).
Proof.
  intros Hc. unfold keywords. simpl. rewrite Hc. reflexivity.
Qed.

Lemma keywords_color_name (v w : pyval) (kwargs : dict) :
  has_key "color" kwargs = false ->
  has_key "name" kwargs = false ->
  keywords [("color", v); ("name", w)] kwargs
  = Ok (("color", v) :: ("name", w) :: kwargs).
Proof.
  intros Hc Hn. unfold keywords. simpl. rewrite Hc, Hn. reflexivity.
Qed.

Lemma verbose_of_eq (self : BaseTool.t) (verbose : option bool) :
  match verbose with
  | Some v => if negb (BaseTool.verbose self) then v
              else BaseTool.verbose self
  | None => BaseTool.verbose self
  end = verbose_of self verbose.
Proof.
  unfold verbose_of. destruct verbose as [v|], (BaseTool.verbose self);
    reflexivity.
Qed.

(** What [run] does once the input is accepted and the start hook can
    be called. *)
Lemma run_accepted (self : BaseTool.t) (tool_input : ToolInput)
    (verbose : option bool) (start_color color : option string)
    (callbacks : Callbacks) (kwargs : dict) (tr : list event) :
  _parse_input self tool_input = Ok tt ->
  has_key "color" kwargs = false ->
  let rm := handle_of false self verbose callbacks in
  let explicit := handle_keyword (BaseTool._run self) rm in
  let tr1 :=
    (tr ++ [started false self tool_input verbose start_color callbacks kwargs;
            Called The_run (tool_args tool_input) explicit
              (tool_kwargs_of tool_input)])%list in
  run self tool_input verbose start_color color callbacks kwargs tr
  = match py_call (BaseTool._run self) (tool_args tool_input) explicit
            (tool_kwargs_of tool_input) with
    | Raise e =>
        if except_Exception_KeyboardInterrupt e
        then (Raise e, (tr1 ++ [ToolError rm e])%list)
        else (Raise e, tr1)
    | Ok v =>
        match keywords [("color", of_opt_str color);
                        ("name", VStr (BaseTool.name self))] kwargs with
        | Ok kw => (Ok v, (tr1 ++ [ToolEnd rm (py_str v) kw])%list)
        | Raise e => (Raise e, tr1)
        end
    end.
Proof.
  intros Hparse Hcolor rm explicit tr1.
  unfold run, bind, lift. rewrite Hparse.
  unfold on_tool_start, bind, lift. rewrite (keywords_color _ _ Hcolor).
  unfold emit, ret, try_except. rewrite verbose_of_eq.
  subst tr1 explicit rm.
  unfold handle_keyword, handle_of, manager_of, started, tool_args,
    tool_kwargs_of, manager_of.
  destruct (_to_args_and_kwargs tool_input) as [args tkw]. simpl fst. simpl snd.
  destruct (has_parameter "run_manager" (BaseTool._run self));
    unfold call, bind, emit, lift, on_tool_error, on_tool_end, raise, ret, emit, bind, lift;
    match goal with
    | |- context [py_call ?f ?a ?e ?s] => destruct (py_call f a e s) as [v|e']
    end;
    repeat rewrite <- app_assoc; simpl;
    try (destruct (except_Exception_KeyboardInterrupt e'); reflexivity);
    destruct (keywords _ kwargs); reflexivity.
Qed.

(** What [arun] does once the input is accepted and the start hook can
    be called. *)
Lemma arun_accepted (self : BaseTool.t) (tool_input : ToolInput)
    (verbose : option bool) (start_color color : option string)
    (callbacks : Callbacks) (kwargs : dict) (tr : list event) :
  _parse_input self tool_input = Ok tt ->
  has_key "color" kwargs = false ->
  let rm := handle_of true self verbose callbacks in
  let explicit := handle_keyword (BaseTool._arun self) rm in
  let star := arun_star self tool_input kwargs in
  let tr1 :=
    (tr ++ [started true self tool_input verbose start_color callbacks kwargs;
            Called The_arun (tool_args tool_input) explicit star])%list in
  arun self tool_input verbose start_color color callbacks kwargs tr
  = match py_call (BaseTool._arun self) (tool_args tool_input) explicit
            star with
    | Raise e =>
        if except_Exception_KeyboardInterrupt e
        then (Raise (escaped e), (tr1 ++ [ToolError rm e])%list)
        else (Raise (escaped e), tr1)
    | Ok v =>
        match keywords [("color", of_opt_str color);
                        ("name", VStr (BaseTool.name self))] kwargs with
        | Ok kw => (Ok v, (tr1 ++ [ToolEnd rm (py_str v) kw])%list)
        | Raise e => (Raise (escaped e), tr1)
        end
    end.
Proof.
  intros Hparse Hcolor rm explicit star tr1.
  unfold arun, async_def, bind, lift. rewrite Hparse.
  unfold on_tool_start, bind, lift. rewrite (keywords_color _ _ Hcolor).
  unfold emit, ret, try_except. rewrite verbose_of_eq.
  subst tr1 explicit star rm.
  unfold handle_keyword, arun_star, handle_of, manager_of, started,
    tool_args, tool_kwargs_of, manager_of.
  destruct (_to_args_and_kwargs tool_input) as [args tkw]. simpl fst. simpl snd.
  destruct (has_parameter "run_manager" (BaseTool._arun self));
    unfold call, bind, emit, lift, on_tool_error, on_tool_end, raise, ret,
      emit, bind, lift;
    match goal with
    | |- context [py_call ?f ?a ?e ?s] => destruct (py_call f a e s) as [v|e']
    end;
    repeat rewrite <- app_assoc; simpl;
    try (destruct (except_Exception_KeyboardInterrupt e'); reflexivity);
    destruct (keywords _ kwargs); reflexivity.
Qed.

(** [_parse_input] validates the binding of the input, when the tool has
    a schema. *)
Lemma _parse_input_binding (self : BaseTool.t) (cls : BaseModel)
    (tool_input : ToolInput) :
  BaseTool.args_schema self = Some cls ->
  _parse_input self tool_input
  = (d <- binding_of cls tool_input ;; _ <- validate cls d ;; Ok tt)%result.
Proof.
  intros Hs. unfold _parse_input, binding_of. rewrite Hs.
  destruct tool_input as [s|d]; [|reflexivity].
  destruct (next_iter (map f_name (__fields__ cls))); reflexivity.
Qed.

(** A failed validation is a [ValidationError]. *)
Lemma validate_raises (cls : BaseModel) (d : dict) (e : exn) :
  validate cls d = Raise e -> exc_type e = ValidationError.
Proof.
  unfold validate.
  destruct (existsb _ (__fields__ cls) || _).
  - intros [= <-]. reflexivity.
  - destruct (extra cls); discriminate.
Qed.

(** A rejected input ends [run] and [arun] where they began. *)
Lemma parse_failure_stops (self : BaseTool.t) (tool_input : ToolInput)
    (verbose : option bool) (start_color color : option string)
    (callbacks : Callbacks) (kwargs : dict) (tr : list event) (e : exn) :
  _parse_input self tool_input = Raise e ->
  run self tool_input verbose start_color color callbacks kwargs tr
    = (Raise e, tr)
  /\ arun self tool_input verbose start_color color callbacks kwargs tr
    = (Raise (escaped e), tr).
Proof.
  intros Hparse. unfold run, arun, async_def, bind, lift. rewrite Hparse.
  split; reflexivity.
Qed.

(** Only [StopIteration] changes when it leaves a coroutine. *)
Lemma escaped_ValidationError (e : exn) :
  exc_type e = ValidationError -> escaped e = e.
Proof.
  intros He. unfold escaped. rewrite He. reflexivity.
Qed.

(** A required field that the input does not bind is an error. *)
Lemma validate_missing_required (cls : BaseModel) (d : dict) (g : ModelField) :
  In g (__fields__ cls) ->
  required g = true ->
  has_key (f_name g) d = false ->
  validate cls d = Raise (mk_exn ValidationError (model_name cls)).
Proof.
  intros Hin Hreq Hkey. unfold validate.
  assert (Herr : existsb (fun f => is_error (validate_field f d))
                   (__fields__ cls) = true).
  { apply existsb_exists. exists g. split; [assumption|].
    unfold validate_field. unfold has_key in Hkey.
    destruct (lookup (f_name g) d); [discriminate|].
    rewrite Hreq. reflexivity. }
  rewrite Herr. reflexivity.
Qed.

(** Both calls begin with the start notification. *)
Lemma run_starts (self : BaseTool.t) (tool_input : ToolInput)
    (verbose : option bool) (start_color color : option string)
    (callbacks : Callbacks) (kwargs : dict) (tr : list event) :
  _parse_input self tool_input = Ok tt ->
  has_key "color" kwargs = false ->
  exists r rest,
    run self tool_input verbose start_color color callbacks kwargs tr
    = (r, (tr ++ started false self tool_input verbose start_color
                   callbacks kwargs
              :: Called The_run (tool_args tool_input)
                   (handle_keyword (BaseTool._run self)
                      (handle_of false self verbose callbacks))
                   (tool_kwargs_of tool_input)
              :: rest)%list).
Proof.
  intros Hparse Hcolor.
  rewrite (run_accepted _ _ _ _ _ _ _ _ Hparse Hcolor).
  match goal with
  | |- context [py_call ?f ?a ?e ?s] => destruct (py_call f a e s) as [v|e']
  end.
  - destruct (keywords _ kwargs); eexists; eexists;
      repeat rewrite <- app_assoc; reflexivity.
  - destruct (except_Exception_KeyboardInterrupt e'); eexists; eexists;
      repeat rewrite <- app_assoc; reflexivity.
Qed.

Lemma arun_starts (self : BaseTool.t) (tool_input : ToolInput)
    (verbose : option bool) (start_color color : option string)
    (callbacks : Callbacks) (kwargs : dict) (tr : list event) :
  _parse_input self tool_input = Ok tt ->
  has_key "color" kwargs = false ->
  exists r rest,
    arun self tool_input verbose start_color color callbacks kwargs tr
    = (r, (tr ++ started true self tool_input verbose start_color
                   callbacks kwargs
              :: Called The_arun (tool_args tool_input)
                   (handle_keyword (BaseTool._arun self)
                      (handle_of true self verbose callbacks))
                   (arun_star self tool_input kwargs)
              :: rest)%list).
Proof.
  intros Hparse Hcolor.
  rewrite (arun_accepted _ _ _ _ _ _ _ _ Hparse Hcolor).
  match goal with
  | |- context [py_call ?f ?a ?e ?s] => destruct (py_call f a e s) as [v|e']
  end.
  - destruct (keywords _ kwargs); eexists; eexists;
      repeat rewrite <- app_assoc; reflexivity.
  - destruct (except_Exception_KeyboardInterrupt e'); eexists; eexists;
      repeat rewrite <- app_assoc; reflexivity.
Qed.

End Properties.

(** ** The claims of the specification *)

Section Claims.
Context `{Runtime}.

(** C1.  For a tool whose schema declares exactly one field, a bare
    string is bound to that field's name for validation: [run] on the
    string validates the same mapping, with the same outcome, as [run] on
    the mapping that assigns the string to the field. *)
Theorem single_field_string_binding (self : BaseTool.t) (cls : BaseModel)
    (f : ModelField) (s : string) :
  BaseTool.args_schema self = Some cls ->
  __fields__ cls = [f] ->
  let binding := [(f_name f, VStr s)] in
  binding_of cls (InputStr s) = Ok binding
  /\ binding_of cls (InputDict binding) = Ok binding
  /\ _parse_input self (InputStr s)
     = (_ <- validate cls binding ;; Ok tt)%result
  /\ _parse_input self (InputDict binding)
     = (_ <- validate cls binding ;; Ok tt)%result.
Proof.
  intros Hs Hf binding.
  assert (Hb : binding_of cls (InputStr s) = Ok binding).
  { unfold binding_of. rewrite Hf. reflexivity. }
  repeat split; try assumption.
  - rewrite (_parse_input_binding _ _ _ Hs), Hb. reflexivity.
  - rewrite (_parse_input_binding _ _ _ Hs). reflexivity.
Qed.


(** C3, as amended.  When the call of the underlying function raises,
    [run] raises the same exception and emits no end notification; the
    error hook is invoked exactly once, with that exception, when it is an
    instance of [Exception] or a [KeyboardInterrupt], and not at all when
    it is of another class. *)
Theorem run_reports_error_once (self : BaseTool.t) (tool_input : ToolInput)
    (verbose : option bool) (start_color color : option string)
    (callbacks : Callbacks) (kwargs : dict) (tr : list event) (e : exn) :
  _parse_input self tool_input = Ok tt ->
  has_key "color" kwargs = false ->
  let rm := handle_of false self verbose callbacks in
  let explicit := handle_keyword (BaseTool._run self) rm in
  py_call (BaseTool._run self) (tool_args tool_input) explicit
    (tool_kwargs_of tool_input) = Raise e ->
  run self tool_input verbose start_color color callbacks kwargs tr
  = (Raise e,
     (tr ++ [started false self tool_input verbose start_color callbacks kwargs;
             Called The_run (tool_args tool_input) explicit
               (tool_kwargs_of tool_input)]
         ++ (if is_Exception e || is_KeyboardInterrupt e
             then [ToolError rm e]
             else []))%list).
Proof.
  intros Hparse Hcolor rm explicit Hcall.
  rewrite (run_accepted _ _ _ _ _ _ _ _ Hparse Hcolor).
  fold rm. fold explicit. rewrite Hcall.
  unfold except_Exception_KeyboardInterrupt.
  destruct (is_Exception e || is_KeyboardInterrupt e).
  - rewrite app_assoc. reflexivity.
  - rewrite app_nil_r. reflexivity.
Qed.

(** C4, as amended.  For a tool whose schema declares more than one
    field, a bare string is bound to the first declared field and that
    one-key mapping is validated; [run] raises the invalid-input error,
    before any notification, whenever another field is required. *)
Theorem string_input_missing_required (self : BaseTool.t) (cls : BaseModel)
    (f g : ModelField) (rest : list ModelField) (s : string)
    (verbose : option bool) (start_color color : option string)
    (callbacks : Callbacks) (kwargs : dict) (tr : list event) :
  BaseTool.args_schema self = Some cls ->
  __fields__ cls = f :: rest ->
  In g rest ->
  required g = true ->
  f_name g <> f_name f ->
  binding_of cls (InputStr s) = Ok [(f_name f, VStr s)]
  /\ _parse_input self (InputStr s)
     = (_ <- validate cls [(f_name f, VStr s)] ;; Ok tt)%result
  /\ exists e,
       exc_type e = ValidationError
       /\ run self (InputStr s) verbose start_color color callbacks kwargs tr
          = (Raise e, tr).
Proof.
  intros Hs Hf Hin Hreq Hne.
  assert (Hb : binding_of cls (InputStr s) = Ok [(f_name f, VStr s)]).
  { unfold binding_of. rewrite Hf. reflexivity. }
  split; [assumption|].
  split; [rewrite (_parse_input_binding _ _ _ Hs), Hb; reflexivity|].
  exists (mk_exn ValidationError (model_name cls)). split; [reflexivity|].
  apply parse_failure_stops.
  rewrite (_parse_input_binding _ _ _ Hs), Hb. simpl.
  rewrite (validate_missing_required cls _ g).
  - reflexivity.
  - rewrite Hf. right. assumption.
  - assumption.
  - unfold has_key. simpl.
    destruct (String.eqb_spec (f_name g) (f_name f)); [contradiction|reflexivity].
Qed.


(** C6.  When the signature of [_arun] does not declare [run_manager],
    [arun] calls it with the positional arguments of the input and, as
    keywords, exactly the extra keyword arguments of the call; the handle
    is not passed. *)
Theorem arun_forwards_extra_kwargs (self : BaseTool.t)
    (tool_input : ToolInput) (verbose : option bool)
    (start_color color : option string) (callbacks : Callbacks)
    (kwargs : dict) (tr : list event) :
  has_parameter "run_manager" (BaseTool._arun self) = false ->
  _parse_input self tool_input = Ok tt ->
  has_key "color" kwargs = false ->
  let rm := handle_of true self verbose callbacks in
  let tr1 :=
    (tr ++ [started true self tool_input verbose start_color callbacks kwargs;
            Called The_arun (tool_args tool_input) [] kwargs])%list in
  arun self tool_input verbose start_color color callbacks kwargs tr
  = match body (BaseTool._arun self) (tool_args tool_input) kwargs with
    | Raise e =>
        if except_Exception_KeyboardInterrupt e
        then (Raise (escaped e), (tr1 ++ [ToolError rm e])%list)
        else (Raise (escaped e), tr1)
    | Ok v =>
        match keywords [("color", of_opt_str color);
                        ("name", VStr (BaseTool.name self))] kwargs with
        | Ok kw => (Ok v, (tr1 ++ [ToolEnd rm (py_str v) kw])%list)
        | Raise e => (Raise (escaped e), tr1)
        end
    end.
Proof.
  intros Hsig Hparse Hcolor rm tr1.
  rewrite (arun_accepted _ _ _ _ _ _ _ _ Hparse Hcolor).
  unfold arun_star, handle_keyword. rewrite Hsig.
  unfold py_call. rewrite keywords_nil. reflexivity.
Qed.

(** C7.  [run] and [arun] start on a manager configured with the same
    verbosity: the tool's flag when it is true, whatever the call says;
    otherwise the value the call specifies; the tool's flag when the
    call specifies none. *)
Theorem verbosity_resolution (self : BaseTool.t) (tool_input : ToolInput)
    (verbose : option bool) (start_color color : option string)
    (callbacks : Callbacks) (kwargs : dict) (tr : list event) :
  _parse_input self tool_input = Ok tt ->
  has_key "color" kwargs = false ->
  exists (verbose_ : bool) (r1 r2 : result pyval) (rest1 rest2 : list event),
    run self tool_input verbose start_color color callbacks kwargs tr
    = (r1, (tr ++ ToolStart
                    (mk_manager false callbacks (BaseTool.callbacks self)
                       verbose_)
                    [("name", BaseTool.name self);
                     ("description", BaseTool.description self)]
                    (input_str tool_input)
                    (("color", of_opt_str start_color) :: kwargs)
                  :: rest1)%list)
    /\ arun self tool_input verbose start_color color callbacks kwargs tr
    = (r2, (tr ++ ToolStart
                    (mk_manager true callbacks (BaseTool.callbacks self)
                       verbose_)
                    [("name", BaseTool.name self);
                     ("description", BaseTool.description self)]
                    (input_str tool_input)
                    (("color", of_opt_str start_color) :: kwargs)
                  :: rest2)%list)
    /\ (BaseTool.verbose self = true -> verbose_ = true)
    /\ (BaseTool.verbose self = false ->
        forall v, verbose = Some v -> verbose_ = v)
    /\ (verbose = None -> verbose_ = BaseTool.verbose self).
Proof.
  intros Hparse Hcolor. exists (verbose_of self verbose).
  destruct (run_starts self tool_input verbose start_color color callbacks
              kwargs tr Hparse Hcolor) as (r1 & rest1 & Hr).
  destruct (arun_starts self tool_input verbose start_color color callbacks
              kwargs tr Hparse Hcolor) as (r2 & rest2 & Ha).
  exists r1, r2. do 2 eexists.
  split; [exact Hr|]. split; [exact Ha|].
  unfold verbose_of. repeat split.
  - intros ->. reflexivity.
  - intros -> v ->. reflexivity.
  - intros ->. destruct (BaseTool.verbose self); reflexivity.
Qed.

(** C8, as amended.  [from_function] on [add(a: int, b: int) -> int],
    documented [Adds two numbers.], yields a tool named [add] whose
    schema has exactly the fields [a] and [b] of integer type, the
    parameters of [add] one for one, without the placeholder fields of
    the inferred model; its description is
    [add(a: int, b: int) -> int - Adds two numbers.]: the rendered
    signature includes the return annotation.  Without a docstring and
    without a description the construction fails on its assertion. *)
Theorem from_function_add :
  (exists inferred : BaseModel,
     validate_arguments_model Examples.add = Ok inferred
     /\ map f_name (__fields__ inferred)
        = ["a"; "v__duplicate_kwargs"; "b"; "args"; "kwargs"])
  /\ (exists t : StructuredTool.t,
        from_function Examples.add None None false None true no_kwargs = Ok t
        /\ map (fun f => (f_name f, type_ f))
             (__fields__ (StructuredTool.args_schema t))
           = [("a", TInt); ("b", TInt)]
        /\ map f_name (__fields__ (StructuredTool.args_schema t))
           = map p_name (parameters Examples.add)
        /\ StructuredTool.name t = "add"
        /\ StructuredTool.description t
           = "add(a: int, b: int) -> int - Adds two numbers.")
  /\ (forall (n : string) (ps : list Param) (r : option pytype)
             (b : list pyval -> dict -> result pyval) (name : option string)
             (return_direct : bool) (args_schema : option BaseModel)
             (infer_schema : bool) (kwargs : tool_kwargs),
        from_function (mk_func n None ps r b) name None return_direct
          args_schema infer_schema kwargs
        = Raise (mk_exn AssertionError
            "Function must have a docstring if description not provided.")).
Proof.
  split; [|split].
  - eexists. split; reflexivity.
  - eexists. repeat split; reflexivity.
  - intros. unfold from_function. reflexivity.
Qed.

(** C9.  When the schema rejects the mapping built from the input, the
    invalid-input error leaves [run] and [arun] before any side effect:
    the trace is unchanged, so no notification was emitted and neither
    [_run] nor [_arun] was called. *)
Theorem invalid_input_is_atomic (self : BaseTool.t) (cls : BaseModel)
    (tool_input : ToolInput) (d : dict) (e : exn) (verbose : option bool)
    (start_color color : option string) (callbacks : Callbacks)
    (kwargs : dict) (tr : list event) :
  BaseTool.args_schema self = Some cls ->
  binding_of cls tool_input = Ok d ->
  validate cls d = Raise e ->
  exc_type e = ValidationError
  /\ run self tool_input verbose start_color color callbacks kwargs tr
     = (Raise e, tr)
  /\ arun self tool_input verbose start_color color callbacks kwargs tr
     = (Raise e, tr).
Proof.
  intros Hs Hb Hv. pose proof (validate_raises _ _ _ Hv) as He.
  split; [exact He|].
  assert (Hparse : _parse_input self tool_input = Raise e).
  { rewrite (_parse_input_binding _ _ _ Hs), Hb. simpl. rewrite Hv.
    reflexivity. }
  destruct (parse_failure_stops self tool_input verbose start_color color
              callbacks kwargs tr e Hparse) as [Hrun Harun].
  rewrite (escaped_ValidationError e He) in Harun. split; assumption.
Qed.


End Claims.

(** ** The inferred schema, for every function *)


(** ** The claims on worked examples *)

Section Worked.
#[local] Existing Instance example_runtime.
Import Examples.

Lemma single_field_string_binding_witness :
  BaseTool.args_schema (as_BaseTool upper_tool) = Some TextInput
  /\ __fields__ TextInput = [infer_field "text" TStr None]
  /\ _parse_input (as_BaseTool upper_tool) (InputStr "hi")
     = _parse_input (as_BaseTool upper_tool) (InputDict [("text", VStr "hi")]).
Proof.
  split; [reflexivity|]. split; [reflexivity|].
  destruct (single_field_string_binding (as_BaseTool upper_tool) TextInput
              (infer_field "text" TStr None) "hi" eq_refl eq_refl)
    as (_ & _ & Hstr & Hmap).
  exact (eq_trans Hstr (eq_sym Hmap)).
Defined.



Lemma run_reports_error_once_witness :
  _parse_input failing_tool (InputStr "q") = Ok tt
  /\ has_key "color" [] = false
  /\ py_call (BaseTool._run failing_tool) [VStr "q"] [] [] = Raise boom
  /\ run failing_tool (InputStr "q") None green green None [] []
     = (Raise boom,
        [started false failing_tool (InputStr "q") None green None [];
         Called The_run [VStr "q"] [] [];
         ToolError (handle_of false failing_tool None None) boom]).
Proof.
  do 3 (split; [reflexivity|]).
  exact (run_reports_error_once failing_tool (InputStr "q") None green green
           None [] [] boom eq_refl eq_refl eq_refl).
Defined.

(** C3 as stated fails: a function that raises [SystemExit], which is not
    an [Exception], leaves [run] without an error notification. *)
Lemma run_system_exit_counterexample :
  py_call (BaseTool._run exiting_tool) [VStr "q"] [] []
  = Raise (mk_exn SystemExit "0")
  /\ run exiting_tool (InputStr "q") None green green None [] []
     = (Raise (mk_exn SystemExit "0"),
        [started false exiting_tool (InputStr "q") None green None [];
         Called The_run [VStr "q"] [] []]).
Proof.
  split; reflexivity.
Qed.

Lemma string_input_missing_required_witness :
  BaseTool.args_schema (as_BaseTool add_tool) = Some AddInput
  /\ __fields__ AddInput = [infer_field "a" TInt None; infer_field "b" TInt None]
  /\ required (infer_field "b" TInt None) = true
  /\ exists e,
       exc_type e = ValidationError
       /\ run (as_BaseTool add_tool) (InputStr "3") None green green None [] []
          = (Raise e, []).
Proof.
  repeat (split; [reflexivity|]).
  apply (string_input_missing_required (as_BaseTool add_tool) AddInput
           (infer_field "a" TInt None) (infer_field "b" TInt None)
           [infer_field "b" TInt None] "3" None green green None [] []).
  - reflexivity.
  - reflexivity.
  - left. reflexivity.
  - reflexivity.
  - discriminate.
Defined.

(** C4 as stated fails: two fields, the second with a default, and a
    bare string is accepted and run. *)
Lemma string_input_multi_field_counterexample :
  length (__fields__ Search) = 2
  /\ BaseTool.args_schema (as_BaseTool search_tool) = Some Search
  /\ fst (run (as_BaseTool search_tool) (InputStr "hi") None green green
            None [] [])
     = Ok (VStr "hi").
Proof.
  repeat split.
Qed.



Lemma arun_forwards_extra_kwargs_witness :
  has_parameter "run_manager" (BaseTool._arun echo_tool) = false
  /\ _parse_input echo_tool (InputStr "q") = Ok tt
  /\ has_key "color" [("tag", VInt 1)] = false
  /\ arun echo_tool (InputStr "q") None green green None [("tag", VInt 1)] []
     = (Ok (VStr "q"),
        [started true echo_tool (InputStr "q") None green None
           [("tag", VInt 1)];
         Called The_arun [VStr "q"] [] [("tag", VInt 1)];
         ended (handle_of true echo_tool None None) echo_tool (VStr "q")
           green [("tag", VInt 1)]]).
Proof.
  repeat (split; [reflexivity|]).
  exact (arun_forwards_extra_kwargs echo_tool (InputStr "q") None green green
           None [("tag", VInt 1)] [] eq_refl eq_refl eq_refl).
Defined.

Lemma verbosity_resolution_witness :
  _parse_input loud_tool (InputStr "q") = Ok tt
  /\ has_key "color" [] = false
  /\ exists r rest,
       run loud_tool (InputStr "q") (Some false) green green None [] []
       = (r, ToolStart (mk_manager false None None true)
               [("name", "loud"); ("description", "A verbose tool.")]
               "q" [("color", VStr "green")] :: rest).
Proof.
  repeat (split; [reflexivity|]).
  destruct (verbosity_resolution loud_tool (InputStr "q") (Some false) green
              green None [] [] eq_refl eq_refl)
    as (verbose_ & r1 & r2 & rest1 & rest2 & Hrun & _ & Htool & _ & _).
  exists r1, rest1. rewrite (Htool eq_refl) in Hrun. exact Hrun.
Defined.

(** C8 as stated fails: the description does not begin with the
    signature stripped of its return annotation. *)
Lemma add_description_counterexample :
  exists t : StructuredTool.t,
    from_function add None None false None true no_kwargs = Ok t
    /\ String.prefix "add(a: int, b: int) - Adds two numbers."
         (StructuredTool.description t) = false.
Proof.
  eexists. split; reflexivity.
Qed.

Lemma invalid_input_is_atomic_witness :
  BaseTool.args_schema (as_BaseTool upper_tool) = Some TextInput
  /\ binding_of TextInput (InputDict []) = Ok []
  /\ validate TextInput [] = Raise (mk_exn ValidationError "TextInput")
  /\ run (as_BaseTool upper_tool) (InputDict []) None green green None [] []
     = (Raise (mk_exn ValidationError "TextInput"), [])
  /\ arun (as_BaseTool upper_tool) (InputDict []) None green green None [] []
     = (Raise (mk_exn ValidationError "TextInput"), []).
Proof.
  do 3 (split; [reflexivity|]).
  exact (proj2 (invalid_input_is_atomic (as_BaseTool upper_tool) TextInput
                  (InputDict []) [] (mk_exn ValidationError "TextInput")
                  None green green None [] [] eq_refl eq_refl eq_refl)).
Defined.



(** Outside the claims: what the model does at their edges. *)

(** A schema without fields: the bare string fails on [next], not on
    validation; the coroutine [arun] turns that into a [RuntimeError]. *)
Remark zero_field_string_StopIteration :
  run empty_tool (InputStr "x") None green green None [] []
  = (Raise (mk_exn StopIteration ""), [])
  /\ arun empty_tool (InputStr "x") None green green None [] []
     = (Raise (mk_exn RuntimeError "coroutine raised StopIteration"), []).
Proof. split; reflexivity. Qed.

(** On the path of C6 the entries of a mapping input are not passed. *)
Remark arun_drops_mapping_entries :
  snd (arun echo_tool (InputDict [("query", VStr "q")]) None green green
         None [] [])
  = [started true echo_tool (InputDict [("query", VStr "q")]) None green
       None [];
     Called The_arun [] [] [];
     ToolError (handle_of true echo_tool None None)
       (mk_exn TypeError "arguments")].
Proof. reflexivity. Qed.

(** The fields of the inferred schema are no longer required: the subset
    model is built from [ModelField.default], which is [None] for a
    required field. *)
Remark inferred_fields_not_required :
  exists inferred schema,
    validate_arguments_model add = Ok inferred
    /\ create_schema_from_function "addSchema" add = Ok schema
    /\ map required (__fields__ inferred) = [true; false; true; false; false]
    /\ map required (__fields__ schema) = [false; false].
Proof. do 2 eexists. repeat split. Qed.

End Worked.


(** ** The schema inferencer, for every function *)

Lemma assoc_dict_set_same {V : Type} (k : string) (v : V)
    (d : list (string * V)) :
  assoc k (dict_set k v d) = Some v.
Proof.
  induction d as [|[k' v'] d IH]; simpl.
  - rewrite String.eqb_refl. reflexivity.
  - destruct (String.eqb k k') eqn:E; simpl; rewrite E; [reflexivity|exact IH].
Qed.

Lemma assoc_dict_set_other {V : Type} (k k' : string) (v : V)
    (d : list (string * V)) :
  k <> k' -> assoc k (dict_set k' v d) = assoc k d.
Proof.
  intros Hne. induction d as [|[k0 v0] d IH]; simpl.
  - destruct (String.eqb_spec k k'); [contradiction|reflexivity].
  - destruct (String.eqb_spec k' k0) as [->|Hk0]; simpl.
    + destruct (String.eqb_spec k k0); [contradiction|reflexivity].
    + rewrite IH. reflexivity.
Qed.






(** *** Types *)

Lemma strip_optional_idem (t : pytype) :
  strip_optional (strip_optional t) = strip_optional t.
Proof.
  induction t; simpl; try reflexivity. assumption.
Qed.

Lemma inner_type_strip_optional (t : pytype) :
  inner_type (strip_optional t) = inner_type t.
Proof.
  unfold inner_type. rewrite strip_optional_idem. reflexivity.
Qed.

Lemma no_validator_strip_optional (t : pytype) :
  no_validator (strip_optional t) = no_validator t.
Proof.
  induction t; simpl; try reflexivity. assumption.
Qed.

(** A type with validators has them one level down too. *)
Lemma no_validator_inner_type (t : pytype) :
  no_validator t = None -> no_validator (inner_type t) = None.
Proof.
  rewrite <- (no_validator_strip_optional t). unfold inner_type.
  destruct (strip_optional t); simpl; try (intros; assumption).
  destruct (no_validator p1); [discriminate|]. intros; assumption.
Qed.

(** *** [create_model] *)

Lemma dict_set_Forall {V : Type} (P : string * V -> Prop) (k : string) (v : V)
    (d : list (string * V)) :
  P (k, v) -> Forall P d -> Forall P (dict_set k v d).
Proof.
  intros Hk. induction 1 as [|[k' v'] d Hkv Hd IH]; simpl.
  - constructor; [assumption|constructor].
  - destruct (String.eqb_spec k k') as [<-|Hne].
    + constructor; assumption.
    + constructor; assumption.
Qed.

Lemma dict_set_fresh {V : Type} (k : string) (v : V) (d : list (string * V)) :
  assoc k d = None -> dict_set k v d = (d ++ [(k, v)])%list.
Proof.
  induction d as [|[k' v'] d IH]; simpl; [reflexivity|].
  destruct (String.eqb k k'); [discriminate|].
  intros Hk. rewrite IH by exact Hk. reflexivity.
Qed.

Lemma assoc_app_fresh {V : Type} (k k' : string) (v : V)
    (d : list (string * V)) :
  k <> k' -> assoc k d = None -> assoc k (d ++ [(k', v)])%list = None.
Proof.
  intros Hne. induction d as [|[k0 v0] d IH]; simpl.
  - destruct (String.eqb_spec k k'); [contradiction|reflexivity].
  - destruct (String.eqb k k0); [discriminate|exact IH].
Qed.

(** On entries it accepts, the loop of the metaclass makes one field of
    each, in order. *)
Lemma collect_fields_entries (base : model_base)
    (fields : list (string * (pytype * option pyval))) :
  Forall (fun e => field_entry base (fst e) (fst (snd e)) = true) fields ->
  collect_fields base fields = Ok (map entry_field fields).
Proof.
  induction 1 as [|[k [t d]] fields Hk _ IH]; simpl; [reflexivity|].
  unfold field_entry in Hk. simpl in Hk.
  apply andb_prop in Hk. destruct Hk as [Hk Hv].
  apply andb_prop in Hk. destruct Hk as [Hvalid Hattr].
  rewrite Hvalid. apply negb_true_iff in Hattr. rewrite Hattr.
  destruct (no_validator t); [discriminate|]. rewrite IH. reflexivity.
Qed.

Lemma accepted_entries_no_Config (base : model_base)
    (fields : list (string * (pytype * option pyval))) :
  existsb (String.eqb "Config") (attributes base) = true ->
  Forall (fun e => field_entry base (fst e) (fst (snd e)) = true) fields ->
  assoc "Config" fields = None.
Proof.
  intros HC. induction 1 as [|[k [t d]] fields Hk _ IH]; [reflexivity|].
  cbn [assoc]. destruct (String.eqb_spec "Config" k) as [<-|Hne]; [|exact IH].
  unfold field_entry in Hk. simpl fst in Hk. simpl snd in Hk.
  rewrite HC in Hk. rewrite andb_false_r in Hk. discriminate.
Qed.

Lemma create_model_entries (n : string) (base : model_base)
    (fields : list (string * (pytype * option pyval))) :
  existsb (String.eqb "Config") (attributes base) = true ->
  Forall (fun e => field_entry base (fst e) (fst (snd e)) = true) fields ->
  create_model n base fields
  = Ok (mk_model n (map entry_field fields) (base_extra base)).
Proof.
  intros HC Hall. unfold create_model.
  rewrite (accepted_entries_no_Config base fields HC Hall).
  rewrite (collect_fields_entries base fields Hall). reflexivity.
Qed.

(** Entries that carry a default give optional fields. *)
Lemma collect_fields_optional (base : model_base)
    (fields : list (string * (pytype * option pyval))) :
  Forall (fun e => snd (snd e) <> None) fields ->
  forall fs, collect_fields base fields = Ok fs ->
             Forall (fun f => required f = false) fs.
Proof.
  induction 1 as [|[k [t d]] fields Hk _ IH]; simpl; intros fs Hfs.
  - injection Hfs as <-. constructor.
  - destruct (is_valid_field k); [|apply IH; exact Hfs].
    destruct (existsb (String.eqb k) (attributes base)); [discriminate|].
    destruct (no_validator t); [discriminate|].
    destruct (collect_fields base fields) as [fs'|e]; [|discriminate].
    simpl in Hfs. injection Hfs as <-. constructor; [|apply IH; reflexivity].
    simpl in Hk. destruct d; [reflexivity|contradiction].
Qed.

(** *** [validate_arguments] *)








(** *** [_create_subset_model] *)

(** The comprehension, for names asked once each: the entries of the
    names that are fields, in the order asked. *)
Lemma subset_comprehension (model : BaseModel) (field_names : list string) :
  NoDup field_names ->
  forall fields,
  (forall k, In k field_names -> assoc k fields = None) ->
  fold_left
    (fun fields field_name =>
       match field_named field_name model with
       | Some f => dict_set field_name (type_ f, Some (default f)) fields
       | None => fields
       end)
    field_names fields
  = (fields ++ flat_map (subset_entry model) field_names)%list.
Proof.
  induction 1 as [|k ks Hk Hnd IH]; intros fields Hfresh; simpl.
  - rewrite app_nil_r. reflexivity.
  - unfold subset_entry at 1.
    destruct (field_named k model) as [f|].
    + rewrite (dict_set_fresh k _ fields (Hfresh k (or_introl eq_refl))).
      rewrite IH.
      * rewrite <- app_assoc. reflexivity.
      * intros k' Hk'. apply assoc_app_fresh.
        -- intros ->. contradiction.
        -- apply Hfresh. right. exact Hk'.
    + apply IH. intros k' Hk'. apply Hfresh. right. exact Hk'.
Qed.

(** Whatever the names, every entry of the comprehension carries a
    default. *)
Lemma subset_entries_default (model : BaseModel) (field_names : list string) :
  forall fields,
  Forall (fun e : string * (pytype * option pyval) => snd (snd e) <> None)
    fields ->
  Forall (fun e : string * (pytype * option pyval) => snd (snd e) <> None)
    (fold_left
       (fun fields field_name =>
          match field_named field_name model with
          | Some f => dict_set field_name (type_ f, Some (default f)) fields
          | None => fields
          end)
       field_names fields).
Proof.
  induction field_names as [|k ks IH]; intros fields Hall; simpl;
    [exact Hall|].
  apply IH. destruct (field_named k model); [|exact Hall].
  apply dict_set_Forall; [discriminate|exact Hall].
Qed.

(** Every field of a subset model is optional, and the model ignores
    extra keys. *)
Lemma subset_fields_optional (name : string) (model : BaseModel)
    (field_names : list string) (m : BaseModel) :
  _create_subset_model name model field_names = Ok m ->
  Forall (fun f => required f = false) (__fields__ m) /\ extra m = ignore.
Proof.
  unfold _create_subset_model, create_model.
  match goal with
  | |- context [assoc "Config" ?fs] => set (fields := fs)
  end.
  destruct (match assoc "Config" fields with
            | Some (_, None) => true
            | Some (_, Some value) => truthy value
            | None => false
            end); [discriminate|].
  destruct (collect_fields pydantic_BaseModel fields) as [fs|e] eqn:Hfs;
    [|discriminate].
  simpl. intros [= <-]. split; [|reflexivity]. simpl.
  apply (collect_fields_optional pydantic_BaseModel fields); [|exact Hfs].
  apply subset_entries_default. constructor.
Qed.

(** *** [create_schema_from_function] *)




Section SchemaUse.
Context `{Runtime}.

(** A model whose fields are all optional and that does not forbid extra
    keys validates the empty mapping to its defaults. *)
Lemma validate_empty_optional (cls : BaseModel) :
  Forall (fun f => required f = false) (__fields__ cls) ->
  extra cls = ignore ->
  validate cls [] = Ok (map (fun f => (f_name f, default f)) (__fields__ cls)).
Proof.
  intros Hopt Hex. unfold validate. rewrite Hex.
  assert (Hfield : forall f, In f (__fields__ cls) ->
                             validate_field f [] = Some (default f)).
  { intros f Hf. unfold validate_field. simpl.
    rewrite Forall_forall in Hopt. rewrite (Hopt f Hf). reflexivity. }
  assert (Herr : existsb (fun f => is_error (validate_field f []))
                   (__fields__ cls) = false).
  { apply not_true_is_false. intros Hex'. apply existsb_exists in Hex'.
    destruct Hex' as (f & Hf & He). rewrite (Hfield f Hf) in He. discriminate. }
  rewrite Herr. simpl. f_equal.
  clear Herr Hopt. induction (__fields__ cls) as [|f fs IH]; [reflexivity|].
  simpl. rewrite (Hfield f (or_introl eq_refl)). simpl.
  rewrite IH by (intros g Hg; apply Hfield; right; exact Hg). reflexivity.
Qed.

(** The schema of a function validates the empty mapping. *)
Lemma created_schema_validates_empty (model_name : string) (func : pyfunc)
    (m : BaseModel) :
  create_schema_from_function model_name func = Ok m ->
  validate m [] = Ok (map (fun f => (f_name f, default f)) (__fields__ m)).
Proof.
  unfold create_schema_from_function.
  destruct (validate_arguments_model func) as [inferred|e]; [|discriminate].
  simpl. destruct (get_filtered_args inferred func) as [d|e]; [|discriminate].
  simpl. intros Hm.
  destruct (subset_fields_optional _ _ _ _ Hm) as [Hopt Hex].
  apply validate_empty_optional; assumption.
Qed.

(** X2.  Whatever the function, the schema [create_schema_from_function]
    returns validates the empty mapping, to the defaults of its fields: a
    parameter without a default is not required by the schema. *)
Theorem inferred_schema_accepts_empty_mapping (model_name : string)
    (func : pyfunc) (m : BaseModel) :
  create_schema_from_function model_name func = Ok m ->
  Forall (fun f => required f = false) (__fields__ m)
  /\ validate m [] = Ok (map (fun f => (f_name f, default f)) (__fields__ m)).
Proof.
  intros Hm. split; [|exact (created_schema_validates_empty _ _ _ Hm)].
  unfold create_schema_from_function in Hm.
  destruct (validate_arguments_model func) as [inferred|e]; [|discriminate].
  simpl in Hm.
  destruct (get_filtered_args inferred func) as [d|e]; [|discriminate].
  simpl in Hm. exact (proj1 (subset_fields_optional _ _ _ _ Hm)).
Qed.

(** X3.  A tool that [from_function] builds with an inferred schema
    accepts the empty mapping: [_parse_input] returns, and [run] goes on to
    the start notification and calls [_run] without arguments. *)
Theorem from_function_tool_accepts_empty_mapping (func : pyfunc)
    (name description : option string) (return_direct : bool)
    (extras : tool_kwargs) (t : StructuredTool.t) (verbose : option bool)
    (start_color color : option string) (callbacks : Callbacks)
    (kwargs : dict) (tr : list event) :
  from_function func name description return_direct None true extras = Ok t ->
  has_key "color" kwargs = false ->
  _parse_input (as_BaseTool t) (InputDict []) = Ok tt
  /\ exists r rest,
       run (as_BaseTool t) (InputDict []) verbose start_color color callbacks
         kwargs tr
       = (r, (tr ++ started false (as_BaseTool t) (InputDict []) verbose
                      start_color callbacks kwargs
                 :: Called The_run []
                      [("run_manager",
                        VRunManager (handle_of false (as_BaseTool t) verbose
                                       callbacks))] []
                 :: rest)%list).
Proof.
  intros Hff Hcolor.
  assert (Hparse : _parse_input (as_BaseTool t) (InputDict []) = Ok tt).
  { unfold from_function in Hff.
    destruct (or_else description (__doc__ func)); [|discriminate].
    simpl in Hff.
    destruct (create_schema_from_function _ func) as [m|e] eqn:Hm;
      [|discriminate].
    simpl in Hff. injection Hff as <-. unfold _parse_input. simpl.
    rewrite (created_schema_validates_empty _ _ _ Hm). reflexivity. }
  split; [exact Hparse|].
  exact (run_starts (as_BaseTool t) (InputDict []) verbose start_color color
           callbacks kwargs tr Hparse Hcolor).
Qed.

End SchemaUse.

(** ** [from_function], for every function *)

Lemma string_append_assoc (a b c : string) : (a ++ b) ++ c = a ++ (b ++ c).
Proof.
  induction a as [|x a IH]; simpl; [reflexivity|]. rewrite IH. reflexivity.
Qed.

Lemma prefix_append (a b : string) : String.prefix a (a ++ b) = true.
Proof.
  induction a as [|x a IH]; simpl; [destruct b; reflexivity|].
  destruct (Ascii.ascii_dec x x) as [_|Hne]; [exact IH|contradiction].
Qed.

Section FactoryProperties.
Context `{Runtime}.

(** The rendered signature opens with a parenthesis. *)
Lemma Signature_str_opens (f : pyfunc) :
  exists rest, Signature_str f = "(" ++ rest.
Proof.
  unfold Signature_str.
  destruct (return_annotation f); eexists; simpl; reflexivity.
Qed.

(** X4.  Whenever [from_function] succeeds, the tool wraps the function it
    was given, its name is the explicit name unless that is missing or
    empty (then the function's own name), and its description begins with
    that name followed by the opening parenthesis of the signature. *)
Theorem from_function_description_prefix (func : pyfunc)
    (name description : option string) (return_direct : bool)
    (args_schema : option BaseModel) (infer_schema : bool)
    (extras : tool_kwargs) (t : StructuredTool.t) :
  from_function func name description return_direct args_schema infer_schema
    extras = Ok t ->
  StructuredTool.func t = func
  /\ StructuredTool.name t
     = match name with
       | Some n => if String.eqb n "" then __name__ func else n
       | None => __name__ func
       end
  /\ String.prefix (StructuredTool.name t ++ "(") (StructuredTool.description t)
     = true.
Proof.
  unfold from_function. intros Hff.
  destruct (or_else description (__doc__ func)) as [d|]; [|discriminate].
  simpl in Hff.
  set (n := match name with
            | Some EmptyString | None => __name__ func
            | Some n => n
            end) in *.
  assert (Hn : n = match name with
                   | Some n => if String.eqb n "" then __name__ func else n
                   | None => __name__ func
                   end).
  { subst n. destruct name as [[|c n']|]; reflexivity. }
  destruct (Signature_str_opens func) as [rest Hsig].
  assert (Hprefix : String.prefix (n ++ "(")
                      (n ++ Signature_str func ++ " - " ++ strip d) = true).
  { rewrite Hsig.
    change (("(" ++ rest) ++ " - " ++ strip d)
      with ("(" ++ (rest ++ " - " ++ strip d)).
    rewrite <- string_append_assoc. apply prefix_append. }
  destruct args_schema as [s|]; simpl in Hff.
  - injection Hff as <-. simpl. rewrite <- Hn. auto.
  - destruct infer_schema; simpl in Hff; [|discriminate].
    destruct (create_schema_from_function _ func); simpl in Hff; [|discriminate].
    injection Hff as <-. simpl. rewrite <- Hn. auto.
Qed.

(** X5.  An empty name or description counts as none: [from_function]
    then falls back on the function's name and docstring, and fails on its
    assertion when the description is empty and there is no docstring. *)
Theorem from_function_falsy_arguments (func : pyfunc)
    (name description : option string) (return_direct : bool)
    (args_schema : option BaseModel) (infer_schema : bool)
    (extras : tool_kwargs) :
  from_function func (Some "") description return_direct args_schema
    infer_schema extras
  = from_function func None description return_direct args_schema
      infer_schema extras
  /\ from_function func name (Some "") return_direct args_schema
       infer_schema extras
     = from_function func name None return_direct args_schema
         infer_schema extras
  /\ (__doc__ func = None ->
      from_function func name (Some "") return_direct args_schema
        infer_schema extras
      = Raise (mk_exn AssertionError
          "Function must have a docstring if description not provided.")).
Proof.
  repeat split. intros Hdoc. unfold from_function. simpl. rewrite Hdoc.
  reflexivity.
Qed.

(** X18.  With a description or a docstring at hand, [from_function]
    infers a schema only when none is given and [infer_schema] is set: a
    given schema is taken as it is, whatever the parameters of the
    function; without one and without inference the construction of the
    tool fails on its required [args_schema]; and inference fails, with
    pydantic's configuration error, on a parameter whose name pydantic
    reserves. *)
Theorem from_function_schema_choice (func : pyfunc)
    (name description : option string) (return_direct : bool)
    (infer_schema : bool) (extras : tool_kwargs) (d : string) :
  or_else description (__doc__ func) = Some d ->
  (forall s : BaseModel,
     exists t,
       from_function func name description return_direct (Some s) infer_schema
         extras = Ok t
       /\ StructuredTool.args_schema t = s)
  /\ from_function func name description return_direct None false extras
     = Raise (mk_exn ValidationError "StructuredTool")
  /\ (existsb (fun p => reserved_name (p_name p)) (parameters func) = true ->
      from_function func name description return_direct None true extras
      = Raise (mk_exn ConfigError "reserved argument name")).
Proof.
  intros Hd. unfold from_function. rewrite Hd. simpl. repeat split.
  - intros s. eexists. split; reflexivity.
  - intros Hres. unfold create_schema_from_function, validate_arguments_model.
    unfold reserved_name in Hres. rewrite Hres. reflexivity.
Qed.

End FactoryProperties.

(** ** Structured tools, end to end *)

Lemma remove_key_absent (k : string) (d : dict) :
  has_key k d = false -> remove_key k d = d.
Proof.
  unfold has_key, remove_key. induction d as [|[k' v] d IH]; simpl;
    [reflexivity|].
  destruct (String.eqb k k'); [discriminate|]. intros Hk. simpl.
  rewrite IH by exact Hk. reflexivity.
Qed.

(** What the body of [_run] / [_arun] makes of a call that carries the
    handle: the function gets the arguments of the call, the child
    callbacks if it declares [callbacks], and never the handle. *)
Lemma structured_body_call (f : pyfunc) (args : list pyval) (tkw : dict)
    (rm : RunManager) :
  has_key "run_manager" tkw = false ->
  (has_parameter "callbacks" f = true -> has_key "callbacks" tkw = false) ->
  structured_body f args (("run_manager", VRunManager rm) :: tkw)
  = body f args (callbacks_keyword f rm ++ tkw)%list.
Proof.
  intros Hrm Hcb. unfold structured_body, callbacks_keyword. simpl.
  fold (remove_key "run_manager" tkw). rewrite (remove_key_absent _ _ Hrm).
  destruct (has_parameter "callbacks" f); simpl.
  - unfold py_call, keywords. simpl. rewrite (Hcb eq_refl). reflexivity.
  - reflexivity.
Qed.


Section StructuredProperties.
Context `{Runtime}.

Lemma run_completion (self : BaseTool.t) (tool_input : ToolInput)
    (verbose : option bool) (start_color color : option string)
    (callbacks : Callbacks) (kwargs : dict) (tr : list event) :
  _parse_input self tool_input = Ok tt ->
  has_key "color" kwargs = false ->
  let rm := handle_of false self verbose callbacks in
  let explicit := handle_keyword (BaseTool._run self) rm in
  run self tool_input verbose start_color color callbacks kwargs tr
  = completion rm (BaseTool.name self) color kwargs
      (tr ++ [started false self tool_input verbose start_color callbacks kwargs;
              Called The_run (tool_args tool_input) explicit
                (tool_kwargs_of tool_input)])%list
      (py_call (BaseTool._run self) (tool_args tool_input) explicit
         (tool_kwargs_of tool_input)).
Proof.
  intros Hparse Hcolor rm explicit.
  rewrite (run_accepted _ _ _ _ _ _ _ _ Hparse Hcolor). reflexivity.
Qed.

Lemma arun_completion (self : BaseTool.t) (tool_input : ToolInput)
    (verbose : option bool) (start_color color : option string)
    (callbacks : Callbacks) (kwargs : dict) (tr : list event) :
  _parse_input self tool_input = Ok tt ->
  has_key "color" kwargs = false ->
  let rm := handle_of true self verbose callbacks in
  let explicit := handle_keyword (BaseTool._arun self) rm in
  arun self tool_input verbose start_color color callbacks kwargs tr
  = async_completion rm (BaseTool.name self) color kwargs
      (tr ++ [started true self tool_input verbose start_color callbacks kwargs;
              Called The_arun (tool_args tool_input) explicit
                (arun_star self tool_input kwargs)])%list
      (py_call (BaseTool._arun self) (tool_args tool_input) explicit
         (arun_star self tool_input kwargs)).
Proof.
  intros Hparse Hcolor rm explicit.
  rewrite (arun_accepted _ _ _ _ _ _ _ _ Hparse Hcolor).
  unfold async_completion, completion. fold rm. fold explicit.
  destruct (py_call _ _ _ _) as [v|e].
  - destruct (keywords _ kwargs); reflexivity.
  - destruct (except_Exception_KeyboardInterrupt e); reflexivity.
Qed.



End StructuredProperties.

(** ** The invoker, for every tool *)

Section InvokerProperties.
Context `{Runtime}.

(** X8.  A schema without fields: a bare string cannot be parsed, [run]
    raises [StopIteration] and [arun] the [RuntimeError] a coroutine makes
    of it, both before any notification or call; the empty mapping is
    accepted. *)
Theorem zero_field_schema (self : BaseTool.t) (cls : BaseModel) (s : string)
    (verbose : option bool) (start_color color : option string)
    (callbacks : Callbacks) (kwargs : dict) (tr : list event) :
  BaseTool.args_schema self = Some cls ->
  __fields__ cls = [] ->
  run self (InputStr s) verbose start_color color callbacks kwargs tr
  = (Raise (mk_exn StopIteration ""), tr)
  /\ arun self (InputStr s) verbose start_color color callbacks kwargs tr
     = (Raise (mk_exn RuntimeError "coroutine raised StopIteration"), tr)
  /\ _parse_input self (InputDict []) = Ok tt.
Proof.
  intros Hs Hf.
  assert (Hparse : _parse_input self (InputStr s)
                   = Raise (mk_exn StopIteration "")).
  { unfold _parse_input. rewrite Hs, Hf. reflexivity. }
  destruct (parse_failure_stops self (InputStr s) verbose start_color color
              callbacks kwargs tr _ Hparse) as [Hrun Harun].
  repeat split; try assumption.
  unfold _parse_input, validate, extra_keys. rewrite Hs, Hf. simpl.
  destruct (extra cls); reflexivity.
Qed.

(** X9.  What [run] returns or raises, once the input is accepted and the
    start hook can be called, is the outcome of the call of [_run], unless
    the end hook cannot be called; [arun] likewise, with the outcome as it
    leaves a coroutine.  In [run] the extra keywords and the colours go to
    the hooks only. *)
Theorem run_returns_call_outcome (self : BaseTool.t) (tool_input : ToolInput)
    (verbose : option bool) (start_color color : option string)
    (callbacks : Callbacks) (kwargs : dict) (tr : list event) :
  _parse_input self tool_input = Ok tt ->
  has_key "color" kwargs = false ->
  has_key "name" kwargs = false ->
  fst (run self tool_input verbose start_color color callbacks kwargs tr)
  = py_call (BaseTool._run self) (tool_args tool_input)
      (handle_keyword (BaseTool._run self)
         (handle_of false self verbose callbacks))
      (tool_kwargs_of tool_input)
  /\ fst (arun self tool_input verbose start_color color callbacks kwargs tr)
     = escaped_result
         (py_call (BaseTool._arun self) (tool_args tool_input)
            (handle_keyword (BaseTool._arun self)
               (handle_of true self verbose callbacks))
            (arun_star self tool_input kwargs)).
Proof.
  intros Hparse Hcolor Hname. split.
  - rewrite (run_completion _ _ _ _ _ _ _ _ Hparse Hcolor). unfold completion.
    rewrite (keywords_color_name _ _ _ Hcolor Hname).
    destruct (py_call _ _ _ _) as [v|e]; [reflexivity|].
    destruct (except_Exception_KeyboardInterrupt e); reflexivity.
  - rewrite (arun_completion _ _ _ _ _ _ _ _ Hparse Hcolor).
    unfold async_completion, completion.
    rewrite (keywords_color_name _ _ _ Hcolor Hname).
    destruct (py_call _ _ _ _) as [v|e]; [reflexivity|].
    destruct (except_Exception_KeyboardInterrupt e); reflexivity.
Qed.

Lemma start_refused (cm : CallbackManager)
    (serialized : list (string * string)) (s : string) (v : pyval)
    (kwargs : dict) (tr : list event) :
  has_key "color" kwargs = true ->
  exists e, on_tool_start cm serialized s [("color", v)] kwargs tr
            = (Raise e, tr).
Proof.
  intros Hc. unfold on_tool_start, bind, lift, keywords. simpl. rewrite Hc.
  simpl. eexists. reflexivity.
Qed.

(** The events one call adds, in every case. *)
Lemma completion_events (rm : RunManager) (name : string)
    (color : option string) (kwargs : dict) (tr1 : list event)
    (r : result pyval) :
  exists tail,
    snd (completion rm name color kwargs tr1 r) = (tr1 ++ tail)%list
    /\ count is_start tail = 0
    /\ count is_end tail + count is_error_event tail <= 1.
Proof.
  unfold completion. destruct r as [v|e].
  - destruct (keywords _ kwargs).
    + exists [ToolEnd rm (py_str v) a]. repeat split. simpl. auto.
    + exists []. rewrite app_nil_r. repeat split. simpl. auto.
  - destruct (except_Exception_KeyboardInterrupt e).
    + exists [ToolError rm e]. repeat split. simpl. auto.
    + exists []. rewrite app_nil_r. repeat split. simpl. auto.
Qed.

Lemma run_events (self : BaseTool.t) (tool_input : ToolInput)
    (verbose : option bool) (start_color color : option string)
    (callbacks : Callbacks) (kwargs : dict) (tr : list event) :
  exists evs,
    snd (run self tool_input verbose start_color color callbacks kwargs tr)
    = (tr ++ evs)%list
    /\ count is_start evs <= 1
    /\ count is_end evs + count is_error_event evs <= count is_start evs.
Proof.
  destruct (_parse_input self tool_input) as [[]|e] eqn:Hparse.
  - destruct (has_key "color" kwargs) eqn:Hcolor.
    + exists []. rewrite app_nil_r. split; [|split; simpl; auto].
      unfold run, bind, lift. rewrite Hparse.
      match goal with
      | |- context [on_tool_start ?cm ?ser ?s [("color", ?v)] kwargs tr] =>
          destruct (start_refused cm ser s v kwargs tr Hcolor) as [e He];
          rewrite He
      end.
      reflexivity.
    + rewrite (run_completion _ _ _ _ _ _ _ _ Hparse Hcolor).
      match goal with
      | |- context [completion ?rm ?n ?c ?k ?t ?r] =>
          destruct (completion_events rm n c k t r) as (tail & Htail & Hs & He);
          rewrite Htail
      end.
      eexists. split; [rewrite <- app_assoc; reflexivity|].
      unfold count in *. simpl. rewrite Hs.
      split; [auto|]. exact He.
  - exists []. rewrite app_nil_r. split; [|split; simpl; auto].
    rewrite (proj1 (parse_failure_stops self tool_input verbose start_color
                      color callbacks kwargs tr e Hparse)).
    reflexivity.
Qed.

Lemma arun_events (self : BaseTool.t) (tool_input : ToolInput)
    (verbose : option bool) (start_color color : option string)
    (callbacks : Callbacks) (kwargs : dict) (tr : list event) :
  exists evs,
    snd (arun self tool_input verbose start_color color callbacks kwargs tr)
    = (tr ++ evs)%list
    /\ count is_start evs <= 1
    /\ count is_end evs + count is_error_event evs <= count is_start evs.
Proof.
  destruct (_parse_input self tool_input) as [[]|e] eqn:Hparse.
  - destruct (has_key "color" kwargs) eqn:Hcolor.
    + exists []. rewrite app_nil_r. split; [|split; simpl; auto].
      unfold arun, async_def, bind, lift. rewrite Hparse.
      match goal with
      | |- context [on_tool_start ?cm ?ser ?s [("color", ?v)] kwargs tr] =>
          destruct (start_refused cm ser s v kwargs tr Hcolor) as [e He];
          rewrite He
      end.
      reflexivity.
    + rewrite (arun_completion _ _ _ _ _ _ _ _ Hparse Hcolor).
      unfold async_completion.
      match goal with
      | |- context [completion ?rm ?n ?c ?k ?t ?r] =>
          destruct (completion_events rm n c k t r) as (tail & Htail & Hs & He);
          destruct (completion rm n c k t r) as [r' tr'] eqn:Hc
      end.
      simpl in Htail. simpl. rewrite Htail.
      eexists. split; [rewrite <- app_assoc; reflexivity|].
      unfold count in *. simpl. rewrite Hs.
      split; [auto|]. exact He.
  - exists []. rewrite app_nil_r. split; [|split; simpl; auto].
    rewrite (proj2 (parse_failure_stops self tool_input verbose start_color
                      color callbacks kwargs tr e Hparse)).
    reflexivity.
Qed.

(** X10.  Whatever the tool, the input and the options, a call of [run] or
    [arun] only adds to the trace, and adds at most one start notification
    and at most one end or error notification, never both and none
    without the start. *)
Theorem notifications_bounded (self : BaseTool.t) (tool_input : ToolInput)
    (verbose : option bool) (start_color color : option string)
    (callbacks : Callbacks) (kwargs : dict) (tr : list event) :
  (exists evs,
     snd (run self tool_input verbose start_color color callbacks kwargs tr)
     = (tr ++ evs)%list
     /\ count is_start evs <= 1
     /\ count is_end evs + count is_error_event evs <= count is_start evs)
  /\ (exists evs,
        snd (arun self tool_input verbose start_color color callbacks kwargs tr)
        = (tr ++ evs)%list
        /\ count is_start evs <= 1
        /\ count is_end evs + count is_error_event evs <= count is_start evs).
Proof.
  split; [apply run_events|apply arun_events].
Qed.

End InvokerProperties.

(** ** [args] and [is_single_input] *)



(** ** The metaclass and the root validator *)

(** X12.  [ToolMetaclass] lets a class through exactly when the class sets
    no schema, or annotates [args_schema] with something other than [None]
    and the bare [BaseModel]; otherwise it raises the annotation error for
    that class, with the annotation it found.  What the class annotates
    besides [args_schema] plays no role. *)
Theorem metaclass_accepts_iff (name : string) (dct : class_dct) :
  let found :=
    assoc "args_schema"
      match dct_annotations dct with Some a => a | None => [] end in
  (ToolMetaclass__new__ name dct = PassedToPydantic
   <-> dct_has_args_schema dct = false
       \/ exists text, found = Some (Ann_other text))
  /\ (ToolMetaclass__new__ name dct <> PassedToPydantic ->
      ToolMetaclass__new__ name dct = SchemaAnnotationError name found).
Proof.
  unfold ToolMetaclass__new__. simpl.
  destruct (dct_has_args_schema dct).
  - destruct (assoc "args_schema" _) as [[| |text]|]; split;
      try (split; [discriminate|intros [Hf|[t Ht]]; discriminate]);
      try (intros _; reflexivity);
      try (split; [intros _; right; exists text; reflexivity|reflexivity]);
      try (intros Hne; contradiction Hne; reflexivity).
  - split; [split; [intros _; left; reflexivity|reflexivity]|].
    intros Hne. contradiction Hne. reflexivity.
Qed.

Lemma assoc_filter_other {V : Type} (k key : string) (d : list (string * V)) :
  k <> key ->
  assoc k (filter (fun kv => negb (String.eqb key (fst kv))) d) = assoc k d.
Proof.
  intros Hne. induction d as [|[k' v] d IH]; simpl; [reflexivity|].
  destruct (String.eqb_spec key k') as [<-|Hk]; simpl.
  - destruct (String.eqb_spec k key); [contradiction|exact IH].
  - rewrite IH. reflexivity.
Qed.

Lemma assoc_filter_same {V : Type} (key : string) (d : list (string * V)) :
  assoc key (filter (fun kv => negb (String.eqb key (fst kv))) d) = None.
Proof.
  induction d as [|[k' v] d IH]; simpl; [reflexivity|].
  destruct (String.eqb key k') eqn:E; simpl; [exact IH|].
  rewrite E. exact IH.
Qed.

(** X13.  The root validator of [BaseTool]: when [callback_manager] is set,
    it is removed, its value becomes [callbacks], replacing whatever
    [callbacks] held, every other value is kept, and one deprecation
    warning is issued; when it is absent or [None], the values are
    returned as they are, without a warning. *)
Theorem raise_deprecation_moves_manager {V : Type}
    (values : list (string * option V)) :
  match assoc "callback_manager" values with
  | Some (Some m) =>
      snd (raise_deprecation values) = 1
      /\ assoc "callbacks" (fst (raise_deprecation values)) = Some (Some m)
      /\ assoc "callback_manager" (fst (raise_deprecation values)) = None
      /\ forall k, k <> "callbacks" -> k <> "callback_manager" ->
           assoc k (fst (raise_deprecation values)) = assoc k values
  | _ => raise_deprecation values = (values, 0)
  end.
Proof.
  destruct (assoc "callback_manager" values) as [[m|]|] eqn:Hm;
    try (unfold raise_deprecation; rewrite Hm; reflexivity).
  assert (Heq : raise_deprecation values
                = (dict_set "callbacks" (Some m)
                     (filter (fun kv => negb (String.eqb "callback_manager"
                                                (fst kv))) values), 1)).
  { unfold raise_deprecation, dict_pop. rewrite Hm. reflexivity. }
  rewrite Heq. cbn [fst snd]. repeat split.
  - apply assoc_dict_set_same.
  - rewrite assoc_dict_set_other by discriminate. apply assoc_filter_same.
  - intros k Hk1 Hk2. rewrite assoc_dict_set_other by assumption.
    apply assoc_filter_other. assumption.
Qed.

(** ** The helpers of the inferencer, for every model *)

(** X14.  [_create_subset_model], on a model as pydantic builds them
    (field names that do not start with an underscore and shadow no
    attribute of [BaseModel], field types with validators) and for names
    asked once each: it succeeds, keeps, in the order asked, the names that
    are fields of the model and drops the others without an error; each
    field kept has the [type_] of the field it comes from, which is its type
    one level down, and its default, is no longer required, and the subset
    model ignores extra keys whatever the model did. *)
Theorem subset_model_fields (name : string) (model : BaseModel)
    (field_names : list string) :
  built_model model = true ->
  NoDup field_names ->
  exists m,
    _create_subset_model name model field_names = Ok m
    /\ map f_name (__fields__ m)
       = filter (fun k => existsb (fun f => String.eqb k (f_name f))
                            (__fields__ model)) field_names
    /\ Forall (fun g => exists f, field_named (f_name g) model = Some f
                                  /\ outer_type_ g = strip_optional (type_ f)
                                  /\ type_ g = inner_type (type_ f)
                                  /\ default g = default f
                                  /\ required g = false)
         (__fields__ m)
    /\ extra m = ignore.
Proof.
  intros Hbuilt Hnd. unfold built_model in Hbuilt.
  rewrite forallb_forall in Hbuilt.
  unfold _create_subset_model.
  rewrite (subset_comprehension model field_names Hnd []) by reflexivity.
  simpl app. rewrite create_model_entries.
  - eexists. split; [reflexivity|]. simpl. clear Hnd.
    split; [|split; [|reflexivity]].
    + induction field_names as [|k ks IH]; simpl; [reflexivity|].
      unfold subset_entry at 1, field_named.
      destruct (find (fun f => String.eqb k (f_name f)) (__fields__ model))
        as [f|] eqn:Hf.
      * assert (Hex : existsb (fun f => String.eqb k (f_name f))
                        (__fields__ model) = true).
        { apply existsb_exists. exists f. apply find_some in Hf. exact Hf. }
        rewrite Hex. simpl. rewrite IH. reflexivity.
      * assert (Hex : existsb (fun f => String.eqb k (f_name f))
                        (__fields__ model) = false).
        { apply not_true_is_false. intros Hex. apply existsb_exists in Hex.
          destruct Hex as (f & Hin & Hk).
          pose proof (find_none _ _ Hf f Hin) as Hn. simpl in Hn.
          rewrite Hk in Hn. discriminate. }
        rewrite Hex. exact IH.
    + induction field_names as [|k ks IH]; simpl; [constructor|].
      unfold subset_entry at 1.
      destruct (field_named k model) as [f|] eqn:Hf; simpl; [|exact IH].
      constructor; [|exact IH].
      exists f. unfold entry_field. simpl. rewrite Hf.
      split; [reflexivity|]. split; [reflexivity|].
      split; [|split; reflexivity].
      unfold type_ at 1. simpl. apply inner_type_strip_optional.
  - reflexivity.
  - apply Forall_forall. intros e He. apply in_flat_map in He.
    destruct He as (k & _ & He). unfold subset_entry in He.
    destruct (field_named k model) as [f|] eqn:Hf; [|contradiction].
    destruct He as [<-|[]]. simpl.
    unfold field_named in Hf. apply find_some in Hf. destruct Hf as [Hin Hk].
    apply String.eqb_eq in Hk. subst k.
    pose proof (Hbuilt f Hin) as Hok. unfold field_entry in *.
    apply andb_prop in Hok. destruct Hok as [Hok Hv]. rewrite Hok. simpl.
    unfold type_.
    destruct (no_validator (outer_type_ f)) eqn:Ht; [discriminate|].
    rewrite (no_validator_inner_type _ Ht). reflexivity.
Qed.


Section CallProperties.
Context `{Runtime}.

(** A coroutine boundary changes nothing the second time. *)
Lemma escaped_result_idem {A : Type} (r : result A) :
  escaped_result (escaped_result r) = escaped_result r.
Proof.
  destruct r as [a|e]; [reflexivity|]. simpl. f_equal.
  unfold escaped. destruct (exc_type e) eqn:He; simpl; try rewrite He;
    reflexivity.
Qed.

(** When the end hook can be called, the outcome of the call is the
    outcome of the whole. *)
Lemma fst_completion (rm : RunManager) (name : string)
    (color : option string) (kwargs : dict) (tr1 : list event)
    (r : result pyval) :
  has_key "color" kwargs = false ->
  has_key "name" kwargs = false ->
  fst (completion rm name color kwargs tr1 r) = r.
Proof.
  intros Hcolor Hname. unfold completion.
  rewrite (keywords_color_name _ _ _ Hcolor Hname).
  destruct r as [v|e]; [reflexivity|].
  destruct (except_Exception_KeyboardInterrupt e); reflexivity.
Qed.

(** X16.  Calling a tool is [run] on the string with the default options:
    a rejected input raises before any notification; an accepted one is
    notified on a manager of the tool's own verbosity, with the colour
    green and no other keyword, so that neither hook can be refused, and
    the outcome of the call of [_run] is reported and returned. *)
Theorem call_is_run_with_defaults (self : BaseTool.t) (tool_input : string)
    (callbacks : Callbacks) (tr : list event) :
  __call__ self tool_input callbacks tr
  = match _parse_input self (InputStr tool_input) with
    | Raise e => (Raise e, tr)
    | Ok _ =>
        let rm :=
          mk_run_manager
            (mk_manager false callbacks (BaseTool.callbacks self)
               (BaseTool.verbose self)) in
        let explicit := handle_keyword (BaseTool._run self) rm in
        match py_call (BaseTool._run self) [VStr tool_input] explicit [] with
        | Ok v =>
            (Ok v,
             (tr ++ [ToolStart (rm_parent rm)
                       [("name", BaseTool.name self);
                        ("description", BaseTool.description self)]
                       tool_input [("color", VStr "green")];
                     Called The_run [VStr tool_input] explicit [];
                     ToolEnd rm (py_str v)
                       [("color", VStr "green");
                        ("name", VStr (BaseTool.name self))]])%list)
        | Raise e =>
            (Raise e,
             (tr ++ [ToolStart (rm_parent rm)
                       [("name", BaseTool.name self);
                        ("description", BaseTool.description self)]
                       tool_input [("color", VStr "green")];
                     Called The_run [VStr tool_input] explicit []]
                 ++ (if is_Exception e || is_KeyboardInterrupt e
                     then [ToolError rm e]
                     else []))%list)
        end
    end.
Proof.
  unfold __call__.
  destruct (_parse_input self (InputStr tool_input)) as [[]|e] eqn:Hparse.
  - rewrite (run_accepted self (InputStr tool_input) None (Some "green")
               (Some "green") callbacks [] tr Hparse eq_refl).
    assert (Hm : manager_of false self None callbacks
                 = mk_manager false callbacks (BaseTool.callbacks self)
                     (BaseTool.verbose self)).
    { unfold manager_of, verbose_of.
      destruct (BaseTool.verbose self); reflexivity. }
    unfold handle_of, started, tool_args, tool_kwargs_of. rewrite Hm. simpl.
    destruct (py_call _ _ _ _) as [v|e].
    + unfold keywords. simpl. rewrite <- app_assoc. reflexivity.
    + unfold except_Exception_KeyboardInterrupt.
      destruct (is_Exception e || is_KeyboardInterrupt e).
      * rewrite <- app_assoc. reflexivity.
      * reflexivity.
  - exact (proj1 (parse_failure_stops self (InputStr tool_input) None
                    (Some "green") (Some "green") callbacks [] tr e Hparse)).
Qed.

(** X17.  A structured tool whose coroutine computes what its function
    computes, neither declaring [callbacks]: on an accepted input, and with
    extra keywords that the hooks accept, [arun] returns or raises what
    [run] does, as it leaves a coroutine. *)
Theorem structured_sync_async_agree (st : StructuredTool.t)
    (coroutine : pyfunc) (tool_input : ToolInput) (verbose : option bool)
    (start_color color : option string) (callbacks : Callbacks)
    (kwargs : dict) (tr tr' : list event) :
  StructuredTool.coroutine st = Some coroutine ->
  has_parameter "callbacks" (StructuredTool.func st) = false ->
  has_parameter "callbacks" coroutine = false ->
  body coroutine (tool_args tool_input) (tool_kwargs_of tool_input)
  = body (StructuredTool.func st) (tool_args tool_input)
      (tool_kwargs_of tool_input) ->
  _parse_input (as_BaseTool st) tool_input = Ok tt ->
  has_key "color" kwargs = false ->
  has_key "name" kwargs = false ->
  has_key "run_manager" (tool_kwargs_of tool_input) = false ->
  fst (arun (as_BaseTool st) tool_input verbose start_color color callbacks
         kwargs tr')
  = escaped_result
      (fst (run (as_BaseTool st) tool_input verbose start_color color
              callbacks kwargs tr)).
Proof.
  intros Hco Hf Hc Hsame Hparse Hcolor Hname Hrm.
  rewrite (run_completion _ _ _ _ _ _ _ _ Hparse Hcolor).
  rewrite (arun_completion _ _ _ _ _ _ _ _ Hparse Hcolor).
  unfold async_completion.
  match goal with
  | |- context [completion ?rm ?n ?c ?k ?t ?r] =>
      rewrite (surjective_pairing (completion rm n c k t r))
  end.
  cbn [fst snd]. rewrite !(fst_completion _ _ _ _ _ _ Hcolor Hname).
  unfold arun_star, handle_keyword. simpl has_parameter. cbv iota.
  unfold py_call, keywords. simpl existsb. rewrite Hrm. simpl.
  rewrite Hco.
  rewrite !structured_body_call
    by (try assumption; intros Hd; congruence).
  unfold callbacks_keyword. rewrite Hf, Hc. simpl. rewrite Hsame.
  apply escaped_result_idem.
Qed.

End CallProperties.

(** ** The further properties on worked examples *)

Section MoreWorked.
#[local] Existing Instance example_runtime.
Import Examples MoreExamples.



Lemma inferred_schema_accepts_empty_mapping_witness :
  create_schema_from_function "addSchema" add
  = Ok (mk_model "addSchemaSchema"
          [mk_field "a" TInt VNone false true;
           mk_field "b" TInt VNone false true] ignore)
  /\ validate (mk_model "addSchemaSchema"
                [mk_field "a" TInt VNone false true;
                 mk_field "b" TInt VNone false true] ignore) []
     = Ok [("a", VNone); ("b", VNone)].
Proof.
  split; [reflexivity|].
  exact (proj2 (inferred_schema_accepts_empty_mapping "addSchema" add _ eq_refl)).
Defined.

Lemma from_function_tool_accepts_empty_mapping_witness :
  exists t : StructuredTool.t,
    from_function add None None false None true no_kwargs = Ok t
    /\ has_key "color" [] = false
    /\ _parse_input (as_BaseTool t) (InputDict []) = Ok tt.
Proof.
  eexists. split; [reflexivity|]. split; [reflexivity|].
  exact (proj1 (from_function_tool_accepts_empty_mapping add None None false
                  no_kwargs _ None green green None [] [] eq_refl eq_refl)).
Defined.

Lemma from_function_description_prefix_witness :
  exists t : StructuredTool.t,
    from_function tag (Some "") None false None true no_kwargs = Ok t
    /\ StructuredTool.name t = "tag"
    /\ String.prefix "tag(" (StructuredTool.description t) = true.
Proof.
  eexists. split; [reflexivity|].
  exact (proj2 (from_function_description_prefix tag (Some "") None false None
                  true no_kwargs _ eq_refl)).
Defined.

Lemma from_function_falsy_arguments_witness :
  __doc__ add_undocumented = None
  /\ from_function add_undocumented None (Some "") false None true no_kwargs
     = Raise (mk_exn AssertionError
         "Function must have a docstring if description not provided.").
Proof.
  split; [reflexivity|].
  exact (proj2 (proj2 (from_function_falsy_arguments add_undocumented None None
                         false None true no_kwargs)) eq_refl).
Defined.



Lemma zero_field_schema_witness :
  BaseTool.args_schema empty_tool = Some Empty
  /\ __fields__ Empty = []
  /\ run empty_tool (InputStr "x") None green green None [] []
     = (Raise (mk_exn StopIteration ""), [])
  /\ arun empty_tool (InputStr "x") None green green None [] []
     = (Raise (mk_exn RuntimeError "coroutine raised StopIteration"), [])
  /\ _parse_input empty_tool (InputDict []) = Ok tt.
Proof.
  do 2 (split; [reflexivity|]).
  exact (zero_field_schema empty_tool Empty "x" None green green None [] []
           eq_refl eq_refl).
Defined.

Lemma run_returns_call_outcome_witness :
  _parse_input echo_tool (InputStr "q") = Ok tt
  /\ has_key "color" [("tag", VInt 1)] = false
  /\ has_key "name" [("tag", VInt 1)] = false
  /\ fst (run echo_tool (InputStr "q") None green green None [("tag", VInt 1)] [])
     = py_call (BaseTool._run echo_tool) [VStr "q"] [] []
  /\ fst (arun echo_tool (InputStr "q") None green green None
            [("tag", VInt 1)] [])
     = escaped_result
         (py_call (BaseTool._arun echo_tool) [VStr "q"] [] [("tag", VInt 1)]).
Proof.
  do 3 (split; [reflexivity|]).
  exact (run_returns_call_outcome echo_tool (InputStr "q") None green green
           None [("tag", VInt 1)] [] eq_refl eq_refl eq_refl).
Defined.


Lemma subset_names_distinct : NoDup ["cells"; "missing"; "rows"].
Proof.
  repeat constructor; simpl; intuition discriminate.
Qed.

Lemma subset_model_fields_witness :
  built_model Grid = true
  /\ _create_subset_model "Cells" Grid ["cells"; "missing"; "rows"]
     = Ok (mk_model "Cells"
             [mk_field "cells" TInt VNone false true;
              mk_field "rows" (TList TInt) VNone false true]
             ignore)
  /\ exists m,
       _create_subset_model "Cells" Grid ["cells"; "missing"; "rows"] = Ok m
       /\ map f_name (__fields__ m) = ["cells"; "rows"]
       /\ extra m = ignore.
Proof.
  split; [reflexivity|]. split; [reflexivity|].
  destruct (subset_model_fields "Cells" Grid ["cells"; "missing"; "rows"]
              eq_refl subset_names_distinct)
    as (m & Hm & Hnames & _ & Hextra).
  exists m. split; [exact Hm|]. split; [exact Hnames|exact Hextra].
Defined.

Lemma structured_sync_async_agree_witness :
  StructuredTool.coroutine async_upper_tool = Some upper
  /\ has_parameter "callbacks" upper = false
  /\ _parse_input (as_BaseTool async_upper_tool) hi_input = Ok tt
  /\ fst (arun (as_BaseTool async_upper_tool) hi_input None green green None
            [] [])
     = escaped_result
         (fst (run (as_BaseTool async_upper_tool) hi_input None green green
                 None [] [])).
Proof.
  do 3 (split; [reflexivity|]).
  exact (structured_sync_async_agree async_upper_tool upper hi_input None
           green green None [] [] [] eq_refl eq_refl eq_refl eq_refl eq_refl
           eq_refl eq_refl eq_refl).
Defined.

Lemma from_function_schema_choice_witness :
  or_else None (__doc__ clash) = Some "Clash."
  /\ existsb (fun p => reserved_name (p_name p)) (parameters clash) = true
  /\ from_function clash None None false None true no_kwargs
     = Raise (mk_exn ConfigError "reserved argument name")
  /\ exists t,
       from_function clash None None false (Some TextInput) true no_kwargs
       = Ok t
       /\ StructuredTool.args_schema t = TextInput.
Proof.
  do 2 (split; [reflexivity|]).
  destruct (from_function_schema_choice clash None None false true no_kwargs
              "Clash." eq_refl) as (Hgiven & _ & Hreserved).
  split; [exact (Hreserved eq_refl)|exact (Hgiven TextInput)].
Defined.

(** Outside the properties: where the inferencer and a structured tool
    raise. *)

(** A parameter whose name starts with an underscore is no field of the
    model pydantic builds, so that [get_filtered_args] fails on it; a
    parameter named as an attribute of the model class is refused by
    pydantic; a handle annotated with its class, which has no validator,
    makes [args] fail on a tool without a schema. *)
Remark inferencer_raises :
  create_schema_from_function "hidden" hidden = Raise (mk_exn KeyError "_x")
  /\ create_schema_from_function "shadow" shadow
     = Raise (mk_exn NameError "dict")
  /\ args annotated_tool
     = Raise (mk_exn RuntimeError
                "no validator found for CallbackManagerForToolRun").
Proof. repeat split. Qed.

(** A function that declares [callbacks], given [callbacks] by the input
    too: the schema ignores the key, and the call of the function raises. *)
Remark structured_callbacks_collide :
  run (as_BaseTool traced_tool)
    (InputDict [("text", VStr "hi"); ("callbacks", VInt 1)])
    None green green None [] []
  = (Raise (mk_exn TypeError "got multiple values for keyword argument"),
     [started false (as_BaseTool traced_tool)
        (InputDict [("text", VStr "hi"); ("callbacks", VInt 1)])
        None green None [];
      Called The_run []
        [("run_manager",
          VRunManager (handle_of false (as_BaseTool traced_tool) None None))]
        [("text", VStr "hi"); ("callbacks", VInt 1)];
      ToolError (handle_of false (as_BaseTool traced_tool) None None)
        (mk_exn TypeError "got multiple values for keyword argument")]).
Proof. reflexivity. Qed.

End MoreWorked.
